(** * The OONI probe engine session and the bridges policy, embedded in Rocq

    The file embeds the [Session] type of package [engine] together with the
    methods that decide how the probe geolocates itself, selects a backend,
    calls the check-in API and starts a circumvention tunnel; and the
    tactics policies of package [enginenetx].

    Go values are embedded as follows.
    - A pointer that may be nil is an [option]; a nil slice is [None] and an
      empty, allocated slice is [Some []].
    - A Go pair [(value, error)] is a pair of options: the code itself
      decides which component it inspects first.
    - A method with a pointer receiver is a computation in the monad [M]
      below: it threads the session and the history of observable actions
      (mutex operations, calls into other packages, log lines), and it may
      panic on a nil dereference.
    - What other packages compute (the network, the tunnel, the clock) is
      not decided by this code: it is read from an environment [Env] whose
      functions receive the history so far, so that two calls need not
      answer alike. *)

From Stdlib Require Import String List ZArith NArith Bool Lia DecimalString.
Import ListNotations.
Open Scope string_scope.
Open Scope list_scope.

(** ** Go's builtin types *)

(** The values of Go's [error] interface that this code creates or
    propagates. *)
Inductive error : Type :=
| ErrAlreadyUsingProxy
| ErrAllProbeServicesFailed
| ContextCanceled
| ContextDeadlineExceeded
| errors_New (msg : string).

(** A call returning [(T, error)]. *)
Definition result (T : Type) : Type := (option T * option error)%type.

(** [*url.URL]: only its identity matters to the session. *)
Definition URL : Type := string.

(** [context.Context], as observed by the call that receives it: [Err()]
    is nil while the context is live, and stays non-nil once cancelled. *)
Record Context : Type := { ctx_Err : option error }.

Definition context_Background : Context := {| ctx_Err := None |}.

(** Go's [int64] addition wraps around. *)
Definition int64_add (a b : Z) : Z :=
  let r := ((a + b) mod 2 ^ 64)%Z in
  if (r <? 2 ^ 63)%Z then r else (r - 2 ^ 64)%Z.

(** [fmt.Sprintf("%d", n)] at an unsigned integer. *)
Definition Sprintf_d (n : N) : string := NilZero.string_of_uint (N.to_uint n).

(** ** Package geolocate *)
Module geolocate.

(** [geolocate.Results]: the fields the session reads. *)
Record Results : Type := {
  ASN : N;
  CountryCode : string;
  NetworkName : string;
  ProbeIP : string;
  ResolverASN : N;
  ResolverIP : string;
  ResolverNetworkName : string
}.

(** Modelled from the spec: the constant [geolocate.DefaultProbeCC],
    whose declaration is not among the sources; the spec gives its value
    as ["ZZ"]. *)
Definition DefaultProbeCC : string := "ZZ".

(** [geolocate.Config], as [LookupLocationContext] fills it. *)
Record Config : Type := {
  EnableResolverLookup : bool;
  UserAgent : string
}.

End geolocate.

(** ** Package model *)
Module model.

(** [model.Service]. *)
Record Service : Type := {
  Address : string;
  Type_ : string;
  Front : string
}.

Record CheckInConfigWebConnectivity : Type := {
  CategoryCodes : option (list string)
}.

(** [model.CheckInConfig]: the fields [Session.CheckIn] reads or writes. *)
Record CheckInConfig : Type := {
  Platform : string;
  ProbeASN : string;
  ProbeCC : string;
  RunType : string;
  SoftwareName : string;
  SoftwareVersion : string;
  WebConnectivity : CheckInConfigWebConnectivity
}.

(** [model.CheckInInfo] is opaque to the session: it carries the URLs to
    measure. *)
Inductive CheckInInfo : Type := mkCheckInInfo (urls : list string).

End model.

(** ** Package tunnel *)
Module tunnel.

(** A running [tunnel.Tunnel]; the session only asks for its proxy URL. *)
Record Tunnel : Type := { SOCKS5ProxyURL : option URL }.

End tunnel.

(** ** Package probeservices *)
Module probeservices.

(** [probeservices.Candidate]: the outcome of benchmarking one endpoint.
    The test helpers are a Go map from names to services. *)
Record Candidate : Type := {
  Duration : Z;
  Err : option error;
  Endpoint : model.Service;
  TestHelpers : list (string * list model.Service)
}.

(** The candidate with the smaller duration; the earlier one on a tie. *)
Definition faster (best c : Candidate) : Candidate :=
  if (Duration c <? Duration best)%Z then c else best.

(** Modelled from the spec: [probeservices.SelectBest], which is not among
    the sources. It keeps the candidates whose [Err] is nil and returns the
    one with the smallest [Duration], the lowest index winning a tie; it
    returns nil when no candidate succeeded. *)
Definition SelectBest (candidates : list Candidate) : option Candidate :=
  match filter (fun c => match Err c with None => true | Some _ => false end)
               candidates with
  | [] => None
  | c :: rest => Some (fold_left faster rest c)
  end.





End probeservices.

(** ** Package engine *)
Module engine.

(** The two mutexes of a session. *)
Inductive Mutex : Type := mu | tunnelMu.

(** What a method does that its caller or the outside world can observe,
    besides its result and the session's fields. *)
Inductive Event : Type :=
| EvLock (m : Mutex)
| EvUnlock (m : Mutex)
| EvInfof (msg : string)
| EvWarnf (msg : string)
| EvGeolocateRun (config : geolocate.Config)
| EvTryAll (services : list model.Service)
| EvNewClient (endpoint : model.Service)
| EvClientCheckIn (config : model.CheckInConfig)
| EvTunnelStart (name : string)
| EvSelectedProbeServiceHook (svc : option model.Service)
| EvTestLookupLocationContext
| EvTestMaybeLookupBackendsContext
| EvTestMaybeLookupLocationContext
| EvTestNewProbeServicesClientForCheckIn.

(** The events so far, oldest first. *)
Definition History : Type := list Event.

(** [sessionProbeServicesClientForCheckIn]: the one method the session needs
    from a probe services client. *)
Record sessionProbeServicesClientForCheckIn : Type := {
  client_CheckIn :
    History -> Context -> model.CheckInConfig -> result model.CheckInInfo
}.

(** [SessionConfig]. A capability is known by whether it is nil. *)
Record SessionConfig : Type := {
  AssetsDir : string;
  AvailableProbeServices : list model.Service;
  KVStore : bool;
  Logger : bool;
  ProxyURL_ : option URL;
  SoftwareName_ : string;
  SoftwareVersion_ : string;
  TempDir_ : string;
  TorArgs_ : list string;
  TorBinary_ : string
}.

(** [Session], without the fields that only hold capabilities (byte counter,
    HTTP transport, key-value store, logger, resolver): their effects show
    as events. The two mutexes are not fields either: locking and unlocking
    are events. [queryProbeServicesCount] is the counter the pointer leads
    to; [selectedProbeServiceHook] tells whether the hook is set. *)
Record Session : Type := {
  assetsDir : string;
  availableProbeServices : list model.Service;
  availableTestHelpers : list (string * list model.Service);
  location : option geolocate.Results;
  proxyURL : option URL;
  queryProbeServicesCount : Z;
  selectedProbeServiceHook : bool;
  selectedProbeService : option model.Service;
  softwareName : string;
  softwareVersion : string;
  tempDir : string;
  torArgs : list string;
  torBinary : string;
  tunnelName : string;
  tunnel : option tunnel.Tunnel;
  testLookupLocationContext :
    option (History -> Context -> result geolocate.Results);
  testMaybeLookupBackendsContext :
    option (History -> Context -> option error);
  testMaybeLookupLocationContext :
    option (History -> Context -> option error);
  testNewProbeServicesClientForCheckIn :
    option (History -> Context -> result sessionProbeServicesClientForCheckIn)
}.

(** [tunnel.Config], as [MaybeStartTunnel] fills it. *)
Record tunnel_Config : Type := {
  Name : string;
  Session_ : Session
}.

(** What the session takes from other packages: constants whose
    declarations are not among the sources, and calls whose answers depend
    on the outside world. *)
Record Env : Type := {
  platform_Name : string;
  version_Version : string;
  DefaultProbeASN : N;
  DefaultProbeNetworkName : string;
  DefaultProbeIP : string;
  DefaultResolverASN : N;
  DefaultResolverIP : string;
  DefaultResolverNetworkName : string;
  probeservices_Default : list model.Service;
  probeservices_TryAll :
    History -> Context -> Session -> list model.Service ->
    list probeservices.Candidate;
  probeservices_NewClient :
    History -> Session -> model.Service ->
    result sessionProbeServicesClientForCheckIn;
  geolocate_Run :
    History -> geolocate.Config -> Context -> result geolocate.Results;
  tunnel_Start :
    History -> Context -> tunnel_Config -> result tunnel.Tunnel;
  ioutil_TempDir : string -> string -> result string
}.

(** *** The monad of session methods *)

(** The state a method runs in: the session its receiver points to, and the
    history. *)
Record St : Type := { sess : Session; hist : History }.

(** A method body: from a state to a value and a state, or a panic. *)
Definition M (A : Type) : Type := St -> option (A * St).

Definition ret {A : Type} (a : A) : M A := fun st => Some (a, st).

Definition bind {A B : Type} (m : M A) (k : A -> M B) : M B :=
  fun st => match m st with
            | Some (a, st') => k a st'
            | None => None
            end.

Notation "x <- m ;; k" := (bind m (fun x => k))
  (at level 61, m at next level, right associativity).
Notation "m ;;; k" := (bind m (fun _ => k))
  (at level 61, right associativity).

(** A nil dereference. *)
Definition panic {A : Type} : M A := fun _ => None.

(** The receiver's fields, now. *)
Definition self : M Session := fun st => Some (sess st, st).

(** An assignment to fields of the receiver. *)
Definition assign (f : Session -> Session) : M unit :=
  fun st => Some (tt, {| sess := f (sess st); hist := hist st |}).

(** An observable action. *)
Definition emit (e : Event) : M unit :=
  fun st => Some (tt, {| sess := sess st; hist := hist st ++ [e] |}).

(** A call into the outside world: it is answered from the history so far,
    and recorded. *)
Definition call {A : Type} (e : Event) (f : History -> A) : M A :=
  fun st => Some (f (hist st), {| sess := sess st; hist := hist st ++ [e] |}).

(** [m.Lock(); defer m.Unlock()] around a body. *)
Definition locked {A : Type} (m : Mutex) (body : M A) : M A :=
  emit (EvLock m) ;;;
  r <- body ;;
  emit (EvUnlock m) ;;;
  ret r.

(** *** Assignments to one field

    [s.f = v] for the fields the methods write. *)

Definition set_location (v : option geolocate.Results) (s : Session) : Session := {|
  assetsDir := assetsDir s;
  availableProbeServices := availableProbeServices s;
  availableTestHelpers := availableTestHelpers s;
  location := v;
  proxyURL := proxyURL s;
  queryProbeServicesCount := queryProbeServicesCount s;
  selectedProbeServiceHook := selectedProbeServiceHook s;
  selectedProbeService := selectedProbeService s;
  softwareName := softwareName s;
  softwareVersion := softwareVersion s;
  tempDir := tempDir s;
  torArgs := torArgs s;
  torBinary := torBinary s;
  tunnelName := tunnelName s;
  tunnel := tunnel s;
  testLookupLocationContext := testLookupLocationContext s;
  testMaybeLookupBackendsContext := testMaybeLookupBackendsContext s;
  testMaybeLookupLocationContext := testMaybeLookupLocationContext s;
  testNewProbeServicesClientForCheckIn := testNewProbeServicesClientForCheckIn s
|}.

Definition set_proxyURL (v : option URL) (s : Session) : Session := {|
  assetsDir := assetsDir s;
  availableProbeServices := availableProbeServices s;
  availableTestHelpers := availableTestHelpers s;
  location := location s;
  proxyURL := v;
  queryProbeServicesCount := queryProbeServicesCount s;
  selectedProbeServiceHook := selectedProbeServiceHook s;
  selectedProbeService := selectedProbeService s;
  softwareName := softwareName s;
  softwareVersion := softwareVersion s;
  tempDir := tempDir s;
  torArgs := torArgs s;
  torBinary := torBinary s;
  tunnelName := tunnelName s;
  tunnel := tunnel s;
  testLookupLocationContext := testLookupLocationContext s;
  testMaybeLookupBackendsContext := testMaybeLookupBackendsContext s;
  testMaybeLookupLocationContext := testMaybeLookupLocationContext s;
  testNewProbeServicesClientForCheckIn := testNewProbeServicesClientForCheckIn s
|}.

Definition set_queryProbeServicesCount (v : Z) (s : Session) : Session := {|
  assetsDir := assetsDir s;
  availableProbeServices := availableProbeServices s;
  availableTestHelpers := availableTestHelpers s;
  location := location s;
  proxyURL := proxyURL s;
  queryProbeServicesCount := v;
  selectedProbeServiceHook := selectedProbeServiceHook s;
  selectedProbeService := selectedProbeService s;
  softwareName := softwareName s;
  softwareVersion := softwareVersion s;
  tempDir := tempDir s;
  torArgs := torArgs s;
  torBinary := torBinary s;
  tunnelName := tunnelName s;
  tunnel := tunnel s;
  testLookupLocationContext := testLookupLocationContext s;
  testMaybeLookupBackendsContext := testMaybeLookupBackendsContext s;
  testMaybeLookupLocationContext := testMaybeLookupLocationContext s;
  testNewProbeServicesClientForCheckIn := testNewProbeServicesClientForCheckIn s
|}.

Definition set_selectedProbeService (v : option model.Service) (s : Session) : Session := {|
  assetsDir := assetsDir s;
  availableProbeServices := availableProbeServices s;
  availableTestHelpers := availableTestHelpers s;
  location := location s;
  proxyURL := proxyURL s;
  queryProbeServicesCount := queryProbeServicesCount s;
  selectedProbeServiceHook := selectedProbeServiceHook s;
  selectedProbeService := v;
  softwareName := softwareName s;
  softwareVersion := softwareVersion s;
  tempDir := tempDir s;
  torArgs := torArgs s;
  torBinary := torBinary s;
  tunnelName := tunnelName s;
  tunnel := tunnel s;
  testLookupLocationContext := testLookupLocationContext s;
  testMaybeLookupBackendsContext := testMaybeLookupBackendsContext s;
  testMaybeLookupLocationContext := testMaybeLookupLocationContext s;
  testNewProbeServicesClientForCheckIn := testNewProbeServicesClientForCheckIn s
|}.

Definition set_availableTestHelpers (v : list (string * list model.Service)) (s : Session) : Session := {|
  assetsDir := assetsDir s;
  availableProbeServices := availableProbeServices s;
  availableTestHelpers := v;
  location := location s;
  proxyURL := proxyURL s;
  queryProbeServicesCount := queryProbeServicesCount s;
  selectedProbeServiceHook := selectedProbeServiceHook s;
  selectedProbeService := selectedProbeService s;
  softwareName := softwareName s;
  softwareVersion := softwareVersion s;
  tempDir := tempDir s;
  torArgs := torArgs s;
  torBinary := torBinary s;
  tunnelName := tunnelName s;
  tunnel := tunnel s;
  testLookupLocationContext := testLookupLocationContext s;
  testMaybeLookupBackendsContext := testMaybeLookupBackendsContext s;
  testMaybeLookupLocationContext := testMaybeLookupLocationContext s;
  testNewProbeServicesClientForCheckIn := testNewProbeServicesClientForCheckIn s
|}.

Definition set_tunnelName (v : string) (s : Session) : Session := {|
  assetsDir := assetsDir s;
  availableProbeServices := availableProbeServices s;
  availableTestHelpers := availableTestHelpers s;
  location := location s;
  proxyURL := proxyURL s;
  queryProbeServicesCount := queryProbeServicesCount s;
  selectedProbeServiceHook := selectedProbeServiceHook s;
  selectedProbeService := selectedProbeService s;
  softwareName := softwareName s;
  softwareVersion := softwareVersion s;
  tempDir := tempDir s;
  torArgs := torArgs s;
  torBinary := torBinary s;
  tunnelName := v;
  tunnel := tunnel s;
  testLookupLocationContext := testLookupLocationContext s;
  testMaybeLookupBackendsContext := testMaybeLookupBackendsContext s;
  testMaybeLookupLocationContext := testMaybeLookupLocationContext s;
  testNewProbeServicesClientForCheckIn := testNewProbeServicesClientForCheckIn s
|}.

Definition set_tunnel (v : option tunnel.Tunnel) (s : Session) : Session := {|
  assetsDir := assetsDir s;
  availableProbeServices := availableProbeServices s;
  availableTestHelpers := availableTestHelpers s;
  location := location s;
  proxyURL := proxyURL s;
  queryProbeServicesCount := queryProbeServicesCount s;
  selectedProbeServiceHook := selectedProbeServiceHook s;
  selectedProbeService := selectedProbeService s;
  softwareName := softwareName s;
  softwareVersion := softwareVersion s;
  tempDir := tempDir s;
  torArgs := torArgs s;
  torBinary := torBinary s;
  tunnelName := tunnelName s;
  tunnel := v;
  testLookupLocationContext := testLookupLocationContext s;
  testMaybeLookupBackendsContext := testMaybeLookupBackendsContext s;
  testMaybeLookupLocationContext := testMaybeLookupLocationContext s;
  testNewProbeServicesClientForCheckIn := testNewProbeServicesClientForCheckIn s
|}.

(** [config.f = v] for the fields of a [model.CheckInConfig]. *)

Definition set_config_Platform (v : string) (s : model.CheckInConfig) : model.CheckInConfig := {|
  model.Platform := v;
  model.ProbeASN := model.ProbeASN s;
  model.ProbeCC := model.ProbeCC s;
  model.RunType := model.RunType s;
  model.SoftwareName := model.SoftwareName s;
  model.SoftwareVersion := model.SoftwareVersion s;
  model.WebConnectivity := model.WebConnectivity s
|}.

Definition set_config_ProbeASN (v : string) (s : model.CheckInConfig) : model.CheckInConfig := {|
  model.Platform := model.Platform s;
  model.ProbeASN := v;
  model.ProbeCC := model.ProbeCC s;
  model.RunType := model.RunType s;
  model.SoftwareName := model.SoftwareName s;
  model.SoftwareVersion := model.SoftwareVersion s;
  model.WebConnectivity := model.WebConnectivity s
|}.

Definition set_config_ProbeCC (v : string) (s : model.CheckInConfig) : model.CheckInConfig := {|
  model.Platform := model.Platform s;
  model.ProbeASN := model.ProbeASN s;
  model.ProbeCC := v;
  model.RunType := model.RunType s;
  model.SoftwareName := model.SoftwareName s;
  model.SoftwareVersion := model.SoftwareVersion s;
  model.WebConnectivity := model.WebConnectivity s
|}.

Definition set_config_RunType (v : string) (s : model.CheckInConfig) : model.CheckInConfig := {|
  model.Platform := model.Platform s;
  model.ProbeASN := model.ProbeASN s;
  model.ProbeCC := model.ProbeCC s;
  model.RunType := v;
  model.SoftwareName := model.SoftwareName s;
  model.SoftwareVersion := model.SoftwareVersion s;
  model.WebConnectivity := model.WebConnectivity s
|}.

Definition set_config_SoftwareName (v : string) (s : model.CheckInConfig) : model.CheckInConfig := {|
  model.Platform := model.Platform s;
  model.ProbeASN := model.ProbeASN s;
  model.ProbeCC := model.ProbeCC s;
  model.RunType := model.RunType s;
  model.SoftwareName := v;
  model.SoftwareVersion := model.SoftwareVersion s;
  model.WebConnectivity := model.WebConnectivity s
|}.

Definition set_config_SoftwareVersion (v : string) (s : model.CheckInConfig) : model.CheckInConfig := {|
  model.Platform := model.Platform s;
  model.ProbeASN := model.ProbeASN s;
  model.ProbeCC := model.ProbeCC s;
  model.RunType := model.RunType s;
  model.SoftwareName := model.SoftwareName s;
  model.SoftwareVersion := v;
  model.WebConnectivity := model.WebConnectivity s
|}.

Definition set_config_WebConnectivity (v : model.CheckInConfigWebConnectivity) (s : model.CheckInConfig) : model.CheckInConfig := {|
  model.Platform := model.Platform s;
  model.ProbeASN := model.ProbeASN s;
  model.ProbeCC := model.ProbeCC s;
  model.RunType := model.RunType s;
  model.SoftwareName := model.SoftwareName s;
  model.SoftwareVersion := model.SoftwareVersion s;
  model.WebConnectivity := v
|}.
(** [config.WebConnectivity.CategoryCodes = v]. *)
Definition set_config_CategoryCodes (v : option (list string))
  (c : model.CheckInConfig) : model.CheckInConfig :=
  set_config_WebConnectivity {| model.CategoryCodes := v |} c.

(** A Go map read: the value of the first binding of the key. *)
Fixpoint map_lookup {V : Type} (m : list (string * V)) (k : string) : option V :=
  match m with
  | [] => None
  | (k', v) :: m' => if String.eqb k k' then Some v else map_lookup m' k
  end.

(** [p != nil]. *)
Definition non_nil {A : Type} (p : option A) : bool :=
  match p with Some _ => true | None => false end.

(** *** The methods of [Session] *)
Section Methods.

Variable env : Env.

(** [NewSession]: the mandatory settings are checked in the order of the
    source, the temporary directory is created, and the session starts
    with no location, no selected probe service and no tunnel. *)
Definition NewSession (config : SessionConfig) : result Session :=
  if String.eqb (AssetsDir config) ""
  then (None, Some (errors_New "AssetsDir is empty"))
  else if negb (Logger config)
  then (None, Some (errors_New "Logger is empty"))
  else if String.eqb (SoftwareName_ config) ""
  then (None, Some (errors_New "SoftwareName is empty"))
  else if String.eqb (SoftwareVersion_ config) ""
  then (None, Some (errors_New "SoftwareVersion is empty"))
  else
    let '(tempDir, err) := ioutil_TempDir env (TempDir_ config) "ooniengine" in
    if non_nil err then (None, err)
    else
      let sess := {|
        assetsDir := AssetsDir config;
        availableProbeServices := AvailableProbeServices config;
        availableTestHelpers := [];
        location := None;
        proxyURL := ProxyURL_ config;
        queryProbeServicesCount := 0;
        selectedProbeServiceHook := false;
        selectedProbeService := None;
        softwareName := SoftwareName_ config;
        softwareVersion := SoftwareVersion_ config;
        tempDir := match tempDir with Some dir => dir | None => "" end;
        torArgs := TorArgs_ config;
        torBinary := TorBinary_ config;
        tunnelName := "";
        tunnel := None;
        testLookupLocationContext := None;
        testMaybeLookupBackendsContext := None;
        testMaybeLookupLocationContext := None;
        testNewProbeServicesClientForCheckIn := None
      |} in
      (Some sess, None).

(** [GetTestHelpersByName]: the services and whether the name is known. *)
Definition GetTestHelpersByName (name : string)
  : M (list model.Service * bool) :=
  locked mu (
    s <- self ;;
    match map_lookup (availableTestHelpers s) name with
    | Some services => ret (services, true)
    | None => ret ([], false)
    end).

Definition Platform : M string := ret (platform_Name env).

Definition ProbeASN : M N :=
  locked mu (
    s <- self ;;
    let asn := DefaultProbeASN env in
    let asn := match location s with
               | Some l => geolocate.ASN l
               | None => asn
               end in
    ret asn).

Definition ProbeASNString : M string :=
  asn <- ProbeASN ;;
  ret ("AS" ++ Sprintf_d asn)%string.

Definition ProbeCC : M string :=
  locked mu (
    s <- self ;;
    let cc := geolocate.DefaultProbeCC in
    let cc := match location s with
              | Some l => geolocate.CountryCode l
              | None => cc
              end in
    ret cc).

Definition ProbeNetworkName : M string :=
  locked mu (
    s <- self ;;
    let nn := DefaultProbeNetworkName env in
    let nn := match location s with
              | Some l => geolocate.NetworkName l
              | None => nn
              end in
    ret nn).

Definition ProbeIP : M string :=
  locked mu (
    s <- self ;;
    let ip := DefaultProbeIP env in
    let ip := match location s with
              | Some l => geolocate.ProbeIP l
              | None => ip
              end in
    ret ip).

Definition ProxyURL : M (option URL) :=
  s <- self ;; ret (proxyURL s).

Definition ResolverASN : M N :=
  locked mu (
    s <- self ;;
    let asn := DefaultResolverASN env in
    let asn := match location s with
               | Some l => geolocate.ResolverASN l
               | None => asn
               end in
    ret asn).

Definition ResolverASNString : M string :=
  asn <- ResolverASN ;;
  ret ("AS" ++ Sprintf_d asn)%string.

Definition ResolverIP : M string :=
  locked mu (
    s <- self ;;
    let ip := DefaultResolverIP env in
    let ip := match location s with
              | Some l => geolocate.ResolverIP l
              | None => ip
              end in
    ret ip).

Definition ResolverNetworkName : M string :=
  locked mu (
    s <- self ;;
    let nn := DefaultResolverNetworkName env in
    let nn := match location s with
              | Some l => geolocate.ResolverNetworkName l
              | None => nn
              end in
    ret nn).

Definition SoftwareName : M string :=
  s <- self ;; ret (softwareName s).

Definition SoftwareVersion : M string :=
  s <- self ;; ret (softwareVersion s).

Definition UserAgent : M string :=
  s <- self ;;
  let useragent := "" in
  let useragent :=
    (useragent ++ (softwareName s ++ "/" ++ softwareVersion s))%string in
  let useragent :=
    (useragent ++ (" ooniprobe-engine/" ++ version_Version env))%string in
  ret useragent.

(** [getAvailableProbeServicesUnlocked]: the caller holds [mu]. *)
Definition getAvailableProbeServicesUnlocked : M (list model.Service) :=
  s <- self ;;
  if (0 <? length (availableProbeServices s))%nat
  then ret (availableProbeServices s)
  else ret (probeservices_Default env).

(** [MaybeLookupBackendsContext]. *)
Definition MaybeLookupBackendsContext (ctx : Context) : M (option error) :=
  locked mu (
    s <- self ;;
    if non_nil (selectedProbeService s) then ret None
    else
      assign (fun s =>
        set_queryProbeServicesCount
          (int64_add (queryProbeServicesCount s) 1) s) ;;;
      services <- getAvailableProbeServicesUnlocked ;;
      s <- self ;;
      candidates <- call (EvTryAll services)
                      (fun h => probeservices_TryAll env h ctx s services) ;;
      let selected := probeservices.SelectBest candidates in
      match selected with
      | None => ret (Some ErrAllProbeServicesFailed)
      | Some selected =>
          emit (EvInfof "session: using probe services: %+v") ;;;
          assign (set_selectedProbeService
                    (Some (probeservices.Endpoint selected))) ;;;
          assign (set_availableTestHelpers
                    (probeservices.TestHelpers selected)) ;;;
          ret None
      end).

(** [maybeLookupBackendsContext]: the test hook if set, the method above
    otherwise. *)
Definition maybeLookupBackendsContext (ctx : Context) : M (option error) :=
  s <- self ;;
  match testMaybeLookupBackendsContext s with
  | Some hook => call EvTestMaybeLookupBackendsContext (fun h => hook h ctx)
  | None => MaybeLookupBackendsContext ctx
  end.

(** [LookupLocationContext]: the resolver lookup is enabled only without a
    proxy. [geolocate.Must(geolocate.NewTask(config)).Run(ctx)] is one call
    into package geolocate. *)
Definition LookupLocationContext (ctx : Context)
  : M (result geolocate.Results) :=
  s <- self ;;
  useragent <- UserAgent ;;
  let config := {|
    geolocate.EnableResolverLookup := negb (non_nil (proxyURL s));
    geolocate.UserAgent := useragent
  |} in
  call (EvGeolocateRun config) (fun h => geolocate_Run env h config ctx).

(** [lookupLocationContext]. *)
Definition lookupLocationContext (ctx : Context)
  : M (result geolocate.Results) :=
  s <- self ;;
  match testLookupLocationContext s with
  | Some hook => call EvTestLookupLocationContext (fun h => hook h ctx)
  | None => LookupLocationContext ctx
  end.

(** [MaybeLookupLocationContext]. *)
Definition MaybeLookupLocationContext (ctx : Context) : M (option error) :=
  if non_nil (ctx_Err ctx) then ret (ctx_Err ctx)
  else
    locked mu (
      s <- self ;;
      if negb (non_nil (location s)) then
        r <- lookupLocationContext ctx ;;
        let '(location, err) := r in
        if non_nil err then ret err
        else
          assign (set_location location) ;;;
          ret None
      else ret None).

(** [maybeLookupLocationContext]. *)
Definition maybeLookupLocationContext (ctx : Context) : M (option error) :=
  s <- self ;;
  match testMaybeLookupLocationContext s with
  | Some hook => call EvTestMaybeLookupLocationContext (fun h => hook h ctx)
  | None => MaybeLookupLocationContext ctx
  end.

(** [MaybeLookupLocation] and [MaybeLookupBackends] use the background
    context. *)
Definition MaybeLookupLocation : M (option error) :=
  MaybeLookupLocationContext context_Background.

Definition MaybeLookupBackends : M (option error) :=
  MaybeLookupBackendsContext context_Background.

(** [NewProbeServicesClient]. The client of package probeservices is seen
    through the interface the check-in needs. Dereferencing a nil
    [selectedProbeService] panics. *)
Definition NewProbeServicesClient (ctx : Context)
  : M (result sessionProbeServicesClientForCheckIn) :=
  if non_nil (ctx_Err ctx) then ret (None, ctx_Err ctx)
  else
    err <- maybeLookupBackendsContext ctx ;;
    if non_nil err then ret (None, err)
    else
      err <- maybeLookupLocationContext ctx ;;
      if non_nil err then ret (None, err)
      else
        s <- self ;;
        (if selectedProbeServiceHook s
         then emit (EvSelectedProbeServiceHook (selectedProbeService s))
         else ret tt) ;;;
        s <- self ;;
        match selectedProbeService s with
        | None => panic
        | Some svc =>
            call (EvNewClient svc)
              (fun h => probeservices_NewClient env h s svc)
        end.

(** [newProbeServicesClientForCheckIn]. *)
Definition newProbeServicesClientForCheckIn (ctx : Context)
  : M (result sessionProbeServicesClientForCheckIn) :=
  s <- self ;;
  match testNewProbeServicesClientForCheckIn s with
  | Some hook =>
      call EvTestNewProbeServicesClientForCheckIn (fun h => hook h ctx)
  | None =>
      r <- NewProbeServicesClient ctx ;;
      let '(client, err) := r in
      if non_nil err then ret (None, err)
      else ret (client, None)
  end.

(** The assignments of [CheckIn] to the fields of [*config] that are
    empty, in the order of the source. *)
Definition fillDefaults (config : model.CheckInConfig)
  : M model.CheckInConfig :=
  config <- (if String.eqb (model.Platform config) ""
             then v <- Platform ;; ret (set_config_Platform v config)
             else ret config) ;;
  config <- (if String.eqb (model.ProbeASN config) ""
             then v <- ProbeASNString ;; ret (set_config_ProbeASN v config)
             else ret config) ;;
  config <- (if String.eqb (model.ProbeCC config) ""
             then v <- ProbeCC ;; ret (set_config_ProbeCC v config)
             else ret config) ;;
  config <- (if String.eqb (model.RunType config) ""
             then ret (set_config_RunType "timed" config)
             else ret config) ;;
  config <- (if String.eqb (model.SoftwareName config) ""
             then v <- SoftwareName ;; ret (set_config_SoftwareName v config)
             else ret config) ;;
  config <- (if String.eqb (model.SoftwareVersion config) ""
             then v <- SoftwareVersion ;;
                  ret (set_config_SoftwareVersion v config)
             else ret config) ;;
  config <- (if non_nil (model.CategoryCodes (model.WebConnectivity config))
             then ret config
             else ret (set_config_CategoryCodes (Some []) config)) ;;
  ret config.

(** [CheckIn]. [config] is what the caller's pointer, which must not be
    nil, leads to; the second component of the value is what it leads to
    when the method returns. The client receives a copy. *)
Definition CheckIn (ctx : Context) (config : model.CheckInConfig)
  : M (result model.CheckInInfo * model.CheckInConfig) :=
  err <- maybeLookupLocationContext ctx ;;
  if non_nil err then ret ((None, err), config)
  else
    r <- newProbeServicesClientForCheckIn ctx ;;
    let '(client, err) := r in
    if non_nil err then ret ((None, err), config)
    else
      config <- fillDefaults config ;;
      match client with
      | None => panic
      | Some client =>
          r <- call (EvClientCheckIn config)
                 (fun h => client_CheckIn client h ctx config) ;;
          ret (r, config)
      end.

(** [MaybeStartTunnel]. *)
Definition MaybeStartTunnel (ctx : Context) (name : string)
  : M (option error) :=
  locked tunnelMu (
    s <- self ;;
    if non_nil (tunnel s) && String.eqb (tunnelName s) name then ret None
    else if non_nil (proxyURL s) && String.eqb name "" then ret None
    else if non_nil (proxyURL s) || non_nil (tunnel s)
    then ret (Some ErrAlreadyUsingProxy)
    else
      let config := {| Name := name; Session_ := s |} in
      r <- call (EvTunnelStart name)
             (fun h => tunnel_Start env h ctx config) ;;
      let '(tunnel, err) := r in
      if non_nil err then
        emit (EvWarnf "cannot start tunnel: %+v") ;;;
        ret err
      else
        match tunnel with
        | None => ret None
        | Some t =>
            assign (set_tunnelName name) ;;;
            assign (set_tunnel (Some t)) ;;;
            assign (set_proxyURL (tunnel.SOCKS5ProxyURL t)) ;;;
            ret None
        end).

End Methods.

End engine.

(** ** Package enginenetx

    Only the tests of this package are among the sources: the policies are
    modelled from the spec. A stream of tactics is the list of the values
    its reader receives, in order, for a context that stays live while the
    stream is read. *)
Module enginenetx.

(** One attempt to establish a TLS connection. *)
Record httpsDialerTactic : Type := {
  Address : string;
  InitialDelay : Z;
  Port : string;
  SNI : string;
  VerifyHostname : string
}.

(** [model.Resolver], as [mocks.Resolver] implements it in the tests. *)
Record Resolver : Type := {
  LookupHost : Context -> string -> result (list string)
}.

(** [httpsDialerPolicy]: the interface a policy implements. *)
Record httpsDialerPolicy : Type := {
  LookupTactics : Context -> string -> string -> list httpsDialerTactic
}.

(** The elements a [range] over a slice visits. *)
Definition elements {A : Type} (s : option (list A)) : list A :=
  match s with Some l => l | None => [] end.

(** Modelled from the spec: [dnsPolicy] and its [LookupTactics], which are
    not among the sources. It calls the resolver; on success it emits one
    tactic per resolved address, with [InitialDelay = 0] and the domain as
    both [SNI] and [VerifyHostname]; on failure it emits nothing. The
    stream is all it returns. *)
Definition dnsPolicy (resolver : Resolver) : httpsDialerPolicy := {|
  LookupTactics := fun ctx domain port =>
    let '(addrs, err) := LookupHost resolver ctx domain in
    match err with
    | Some _ => []
    | None =>
        map (fun addr => {|
               Address := addr;
               InitialDelay := 0;
               Port := port;
               SNI := domain;
               VerifyHostname := domain
             |}) (elements addrs)
    end
|}.

(** Modelled from the spec: the compiled-in set of bridge addresses; the
    spec names one bridge. *)
Definition bridgesAddrs : list string := ["162.55.247.208"].

(** Modelled from the spec: the bridged domain. *)
Definition bridgedDomain : string := "api.ooni.io".

Section Tables.

(** The compiled-in decoy SNIs and test-helper domains are tables the spec
    does not list. *)
Variable bridgesDomains : list string.
Variable bridgesPolicyTestHelpersDomains : list string.

(** What the policy emits for a test-helper domain, given the domain, the
    port and the stream of the fallback, is a parameter. Section 4.E of the
    spec has bridge tactics from a test-helper-specific set, which it does
    not list, followed by the fallback's tactics as they are; the test in
    the sources, as the spec's fifth scenario, accepts no tactic with the
    domain as SNI, which every tactic of the DNS policy has; and section 9
    of the spec leaves the choice open. *)
Variable testHelpersTactics :
  string -> string -> list httpsDialerTactic -> list httpsDialerTactic.

(** Modelled from the spec: the cross-product of bridge addresses and
    decoy SNIs, in a fixed order, verifying the requested domain. *)
Definition bridgesTacticsForDomain (domain port : string)
  : list httpsDialerTactic :=
  flat_map (fun ipAddr =>
    map (fun sni => {|
           Address := ipAddr;
           InitialDelay := 0;
           Port := port;
           SNI := sni;
           VerifyHostname := domain
         |}) bridgesDomains) bridgesAddrs.

(** Modelled from the spec: [bridgesPolicy] and its [LookupTactics], which
    are not among the sources. For the bridged domain: the bridge tactics,
    then every tactic of the fallback, unchanged. For a test-helper domain:
    the stream that [testHelpersTactics] makes of the fallback's. For any
    other domain: the fallback. *)
Definition bridgesPolicy (Fallback : httpsDialerPolicy)
  : httpsDialerPolicy := {|
  LookupTactics := fun ctx domain port =>
    let fallback := LookupTactics Fallback ctx domain port in
    if String.eqb domain bridgedDomain
    then bridgesTacticsForDomain domain port ++ fallback
    else if existsb (String.eqb domain) bridgesPolicyTestHelpersDomains
    then testHelpersTactics domain port fallback
    else fallback
|}.

End Tables.

End enginenetx.

(** * Properties of the session *)
Module SessionTheory.
Import engine.

(** The state after more events, with the same session. *)
Definition logged (st : St) (events : list Event) : St :=
  {| sess := sess st; hist := hist st ++ events |}.

(** The events that are a location lookup. *)
Definition is_lookup (e : Event) : bool :=
  match e with
  | EvGeolocateRun _ | EvTestLookupLocationContext => true
  | _ => false
  end.

(** The events that are a call of [probeservices.TryAll]. *)
Definition is_TryAll (e : Event) : bool :=
  match e with
  | EvTryAll _ => true
  | _ => false
  end.

(** How many events of a kind a history holds. *)
Definition count (p : Event -> bool) (h : History) : nat :=
  length (filter p h).

(** The spec's words for the check-in defaults: a field that is empty
    takes the default, any other field stays. *)
Definition or_default (field default : string) : string :=
  if String.eqb field "" then default else field.

(** The config with the defaults of session [s] in its empty fields. *)
Definition spec_config_with_defaults (env : Env) (s : Session)
  (config : model.CheckInConfig) : model.CheckInConfig := {|
  model.Platform := or_default (model.Platform config) (platform_Name env);
  model.ProbeASN :=
    or_default (model.ProbeASN config)
      ("AS" ++ Sprintf_d match location s with
                         | Some l => geolocate.ASN l
                         | None => DefaultProbeASN env
                         end)%string;
  model.ProbeCC :=
    or_default (model.ProbeCC config)
      match location s with
      | Some l => geolocate.CountryCode l
      | None => geolocate.DefaultProbeCC
      end;
  model.RunType := or_default (model.RunType config) "timed";
  model.SoftwareName :=
    or_default (model.SoftwareName config) (softwareName s);
  model.SoftwareVersion :=
    or_default (model.SoftwareVersion config) (softwareVersion s);
  model.WebConnectivity := {|
    model.CategoryCodes :=
      match model.CategoryCodes (model.WebConnectivity config) with
      | None => Some []
      | Some codes => Some codes
      end
  |}
|}.

(** ** A concrete world, for examples *)

Definition example_service : model.Service := {|
  model.Address := "https://api.ooni.io";
  model.Type_ := "https";
  model.Front := ""
|}.

Definition example_tunnel : tunnel.Tunnel :=
  {| tunnel.SOCKS5ProxyURL := Some "socks5://127.0.0.1:9050" |}.

Definition example_location : geolocate.Results := {|
  geolocate.ASN := 30722;
  geolocate.CountryCode := "IT";
  geolocate.NetworkName := "Vodafone Italia";
  geolocate.ProbeIP := "130.192.91.211";
  geolocate.ResolverASN := 15169;
  geolocate.ResolverIP := "8.8.8.8";
  geolocate.ResolverNetworkName := "Google LLC"
|}.

(** A client whose remote call fails. *)
Definition example_client : sessionProbeServicesClientForCheckIn :=
  {| client_CheckIn := fun _ _ _ => (None, Some (errors_New "502")) |}.

(** A world where a live context reaches every service, a cancelled one
    reaches none, the location is found, and only the tor tunnel starts;
    asking for no tunnel gives no tunnel and no error. *)
Definition example_env : Env := {|
  platform_Name := "linux";
  version_Version := "3.0.0";
  DefaultProbeASN := 0;
  DefaultProbeNetworkName := "";
  DefaultProbeIP := "127.0.0.1";
  DefaultResolverASN := 0;
  DefaultResolverIP := "127.0.0.2";
  DefaultResolverNetworkName := "";
  probeservices_Default := [example_service];
  probeservices_TryAll := fun _ ctx _ services =>
    map (fun endpoint => {|
           probeservices.Duration := 80;
           probeservices.Err := ctx_Err ctx;
           probeservices.Endpoint := endpoint;
           probeservices.TestHelpers := []
         |}) services;
  probeservices_NewClient := fun _ _ _ => (Some example_client, None);
  geolocate_Run := fun _ _ ctx =>
    match ctx_Err ctx with
    | Some e => (None, Some e)
    | None => (Some example_location, None)
    end;
  tunnel_Start := fun _ _ config =>
    if String.eqb (Name config) "" then (None, None)
    else if String.eqb (Name config) "tor" then (Some example_tunnel, None)
    else (None, Some (errors_New "unsupported tunnel"));
  ioutil_TempDir := fun dir pattern =>
    (Some (dir ++ "/" ++ pattern ++ "1")%string, None)
|}.

(** The settings of the example session. *)
Definition example_SessionConfig : SessionConfig := {|
  AssetsDir := "/var/lib/ooni/assets";
  AvailableProbeServices := [];
  KVStore := false;
  Logger := true;
  ProxyURL_ := None;
  SoftwareName_ := "miniooni";
  SoftwareVersion_ := "0.1.0-dev";
  TempDir_ := "/tmp";
  TorArgs_ := [];
  TorBinary_ := ""
|}.

(** The session [NewSession] returns for these settings. *)
Definition example_session : Session := {|
  assetsDir := "/var/lib/ooni/assets";
  availableProbeServices := [];
  availableTestHelpers := [];
  location := None;
  proxyURL := None;
  queryProbeServicesCount := 0;
  selectedProbeServiceHook := false;
  selectedProbeService := None;
  softwareName := "miniooni";
  softwareVersion := "0.1.0-dev";
  tempDir := "/tmp/ooniengine1";
  torArgs := [];
  torBinary := "";
  tunnelName := "";
  tunnel := None;
  testLookupLocationContext := None;
  testMaybeLookupBackendsContext := None;
  testMaybeLookupLocationContext := None;
  testNewProbeServicesClientForCheckIn := None
|}.

Definition example_state : St := {| sess := example_session; hist := [] |}.

Definition cancelled : Context := {| ctx_Err := Some ContextCanceled |}.

Definition example_config : model.CheckInConfig := {|
  model.Platform := "";
  model.ProbeASN := "";
  model.ProbeCC := "US";
  model.RunType := "";
  model.SoftwareName := "";
  model.SoftwareVersion := "9.9.9";
  model.WebConnectivity := {| model.CategoryCodes := None |}
|}.

Example NewSession_example :
  NewSession example_env example_SessionConfig
    = (Some example_session, None).
Proof. reflexivity. Qed.

(** A new session has no location, no selected probe service and no
    tunnel; its proxy is the configured one. *)
Lemma NewSession_fresh (env : Env) (config : SessionConfig) (s : Session) :
  NewSession env config = (Some s, None) ->
  location s = None /\
  selectedProbeService s = None /\
  tunnel s = None /\
  tunnelName s = "" /\
  proxyURL s = ProxyURL_ config /\
  softwareName s <> "" /\
  softwareVersion s <> "".
Proof.
  unfold NewSession.
  destruct (String.eqb_spec (AssetsDir config) ""); [discriminate |].
  destruct (Logger config); [| discriminate]. cbn [negb].
  destruct (String.eqb_spec (SoftwareName_ config) ""); [discriminate |].
  destruct (String.eqb_spec (SoftwareVersion_ config) ""); [discriminate |].
  destruct (ioutil_TempDir env _ _) as [dir [e|]]; [discriminate |].
  cbn [non_nil]. intros H. injection H as <-. now repeat split.
Qed.

(** ** Running a method *)

(** [p != nil] holds of a pointer that is not nil. *)
Lemma non_nil_true {A : Type} (p : option A) : p <> None -> non_nil p = true.
Proof. destruct p; [reflexivity | congruence]. Qed.

(** A locked body runs between the two mutex events. *)
Lemma run_locked {A : Type} (m : Mutex) (body : M A) (st : St) :
  locked m body st =
  match body (logged st [EvLock m]) with
  | Some (r, st') => Some (r, logged st' [EvUnlock m])
  | None => None
  end.
Proof.
  unfold locked, bind, emit, ret, logged.
  destruct (body _) as [[r st']|]; reflexivity.
Qed.

(** Unfolds the monad and computes. *)
Ltac run :=
  unfold bind, self, assign, emit, call, ret, panic, logged in *; simpl in *.

(** ** The accessors *)

(** C8. With no cached location the accessors [ProbeASN], [ProbeCC],
    [ProbeNetworkName], [ProbeIP], [ResolverASN], [ResolverIP] and
    [ResolverNetworkName] return the compile-time defaults, [DefaultProbeCC]
    being ["ZZ"]; with a cached location they return its fields. Each reads
    under the session mutex and changes nothing. *)
Theorem accessors_default_or_cached (env : Env) (st : St) :
  geolocate.DefaultProbeCC = "ZZ" /\
  (location (sess st) = None ->
   let st' := logged st [EvLock mu; EvUnlock mu] in
   ProbeASN env st = Some (DefaultProbeASN env, st') /\
   ProbeCC st = Some (geolocate.DefaultProbeCC, st') /\
   ProbeNetworkName env st = Some (DefaultProbeNetworkName env, st') /\
   ProbeIP env st = Some (DefaultProbeIP env, st') /\
   ResolverASN env st = Some (DefaultResolverASN env, st') /\
   ResolverIP env st = Some (DefaultResolverIP env, st') /\
   ResolverNetworkName env st = Some (DefaultResolverNetworkName env, st')) /\
  (forall l : geolocate.Results,
   location (sess st) = Some l ->
   let st' := logged st [EvLock mu; EvUnlock mu] in
   ProbeASN env st = Some (geolocate.ASN l, st') /\
   ProbeCC st = Some (geolocate.CountryCode l, st') /\
   ProbeNetworkName env st = Some (geolocate.NetworkName l, st') /\
   ProbeIP env st = Some (geolocate.ProbeIP l, st') /\
   ResolverASN env st = Some (geolocate.ResolverASN l, st') /\
   ResolverIP env st = Some (geolocate.ResolverIP l, st') /\
   ResolverNetworkName env st = Some (geolocate.ResolverNetworkName l, st')).
Proof.
  split; [reflexivity|].
  unfold ProbeASN, ProbeCC, ProbeNetworkName, ProbeIP, ResolverASN,
    ResolverIP, ResolverNetworkName.
  rewrite !run_locked.
  split; [intros Hnil | intros l Hloc]; run;
    [rewrite Hnil | rewrite Hloc]; rewrite <- !app_assoc; simpl;
    repeat split; reflexivity.
Qed.

(** The accessors at a session without a location and at one with the
    example location. *)
Lemma accessors_default_or_cached_witness :
  ProbeCC example_state
    = Some ("ZZ", logged example_state [EvLock mu; EvUnlock mu]) /\
  ProbeASN example_env
      {| sess := set_location (Some example_location) example_session;
         hist := [] |}
    = Some (30722%N,
            {| sess := set_location (Some example_location) example_session;
               hist := [EvLock mu; EvUnlock mu] |}).
Proof.
  split.
  - exact (proj1 (proj2 (proj1 (proj2
      (accessors_default_or_cached example_env example_state)) eq_refl))).
  - exact (proj1 (proj2 (proj2
      (accessors_default_or_cached example_env
         {| sess := set_location (Some example_location) example_session;
            hist := [] |})) example_location eq_refl)).
Defined.

(** ** The tunnel state machine *)

(** The three checks that precede [tunnel.Start]: when one of them
    returns, the method has only locked and unlocked [tunnelMu]. *)
Lemma MaybeStartTunnel_noop (env : Env) (ctx : Context) (name : string)
  (st : St) (answer : option error) :
  (if non_nil (tunnel (sess st)) && String.eqb (tunnelName (sess st)) name
   then answer = None
   else if non_nil (proxyURL (sess st)) && String.eqb name ""
   then answer = None
   else (non_nil (proxyURL (sess st)) || non_nil (tunnel (sess st))) = true /\
        answer = Some ErrAlreadyUsingProxy) ->
  MaybeStartTunnel env ctx name st
    = Some (answer, logged st [EvLock tunnelMu; EvUnlock tunnelMu]).
Proof.
  intros H. unfold MaybeStartTunnel. rewrite run_locked. run.
  destruct (non_nil (tunnel (sess st)) && String.eqb (tunnelName (sess st)) name);
    [subst; simpl; now rewrite <- app_assoc|].
  destruct (non_nil (proxyURL (sess st)) && String.eqb name "");
    [subst; simpl; now rewrite <- app_assoc|].
  destruct H as [-> ->]. simpl. now rewrite <- app_assoc.
Qed.

(** With neither proxy nor tunnel, [MaybeStartTunnel] calls [tunnel.Start]
    and acts on its answer. *)
Lemma MaybeStartTunnel_start (env : Env) (ctx : Context) (name : string)
  (st : St) :
  proxyURL (sess st) = None ->
  tunnel (sess st) = None ->
  MaybeStartTunnel env ctx name st =
  match tunnel_Start env (hist st ++ [EvLock tunnelMu]) ctx
          {| Name := name; Session_ := sess st |} with
  | (_, Some e) =>
      Some (Some e,
            logged st [EvLock tunnelMu; EvTunnelStart name;
                       EvWarnf "cannot start tunnel: %+v";
                       EvUnlock tunnelMu])
  | (None, None) =>
      Some (None,
            logged st [EvLock tunnelMu; EvTunnelStart name;
                       EvUnlock tunnelMu])
  | (Some t, None) =>
      Some (None,
            {| sess := set_proxyURL (tunnel.SOCKS5ProxyURL t)
                         (set_tunnel (Some t)
                            (set_tunnelName name (sess st)));
               hist := hist st ++ [EvLock tunnelMu; EvTunnelStart name;
                                   EvUnlock tunnelMu] |})
  end.
Proof.
  intros Hp Ht. unfold MaybeStartTunnel. rewrite run_locked.
  run. rewrite Hp, Ht. simpl.
  destruct (tunnel_Start env _ ctx _) as [[t|] [e|]]; simpl;
    rewrite <- ?app_assoc; reflexivity.
Qed.

(** C3. [MaybeStartTunnel] implements the state machine on [proxyURL],
    [tunnel] and [tunnelName], its cases read in the order the claim gives
    them. It returns nil and leaves the three fields alone (1) for no name
    beside neither proxy nor tunnel, where [tunnel.Start] is asked for no
    tunnel and gives none; (2) for no name beside a proxy; (3) for the name
    of the tunnel that exists. (4) Outside these cases, which for a name
    means that no tunnel of that name exists, a name beside a proxy or
    beside a tunnel of another name gets [ErrAlreadyUsingProxy], the fields
    left alone. (5) Otherwise, in a state where a tunnel comes with a proxy,
    there is a name and neither proxy nor tunnel, and the named tunnel is
    started: a tunnel is stored, with [tunnelName = name] and
    [proxyURL = tunnel.SOCKS5ProxyURL()]; an error is logged and returned,
    the fields left alone. *)
Theorem MaybeStartTunnel_transitions (env : Env) (ctx : Context)
  (name : string) (st : St) :
  let s := sess st in
  let unchanged := logged st [EvLock tunnelMu; EvUnlock tunnelMu] in
  let started := tunnel_Start env (hist st ++ [EvLock tunnelMu]) ctx
                   {| Name := name; Session_ := s |} in
  let nothing_requested :=
    name = "" /\ proxyURL s = None /\ tunnel s = None in
  let proxy_kept := name = "" /\ proxyURL s <> None in
  let same_tunnel := tunnel s <> None /\ tunnelName s = name in
  let already_using_proxy :=
    name <> "" /\
    (proxyURL s <> None \/ (tunnel s <> None /\ tunnelName s <> name)) in
  (nothing_requested ->
   (forall h c, Name c = "" -> tunnel_Start env h ctx c = (None, None)) ->
   MaybeStartTunnel env ctx name st
     = Some (None,
             logged st [EvLock tunnelMu; EvTunnelStart ""; EvUnlock tunnelMu])) /\
  (proxy_kept ->
   MaybeStartTunnel env ctx name st = Some (None, unchanged)) /\
  (same_tunnel ->
   MaybeStartTunnel env ctx name st = Some (None, unchanged)) /\
  (~ same_tunnel -> already_using_proxy ->
   MaybeStartTunnel env ctx name st
     = Some (Some ErrAlreadyUsingProxy, unchanged)) /\
  (~ nothing_requested -> ~ proxy_kept -> ~ same_tunnel ->
   ~ already_using_proxy ->
   (tunnel s <> None -> proxyURL s <> None) ->
   (name <> "" /\ proxyURL s = None /\ tunnel s = None) /\
   (forall t, started = (Some t, None) ->
    MaybeStartTunnel env ctx name st
      = Some (None,
              {| sess := set_proxyURL (tunnel.SOCKS5ProxyURL t)
                           (set_tunnel (Some t) (set_tunnelName name s));
                 hist := hist st ++ [EvLock tunnelMu; EvTunnelStart name;
                                     EvUnlock tunnelMu] |})) /\
   (forall e t, started = (t, Some e) ->
    MaybeStartTunnel env ctx name st
      = Some (Some e,
              logged st [EvLock tunnelMu; EvTunnelStart name;
                         EvWarnf "cannot start tunnel: %+v";
                         EvUnlock tunnelMu]))).
Proof.
  intros s unchanged started nothing_requested proxy_kept same_tunnel
    already_using_proxy.
  pose proof (MaybeStartTunnel_start env ctx name st) as Hstart.
  pose proof (MaybeStartTunnel_noop env ctx name st) as Hnoop.
  fold s in Hstart, Hnoop. fold started in Hstart.
  split; [| split; [| split; [| split]]].
  - intros (Hn & Hp & Ht) Hempty. rewrite (Hstart Hp Ht). subst started.
    rewrite Hempty by exact Hn. subst name. reflexivity.
  - intros [Hn Hp]. apply Hnoop.
    rewrite (non_nil_true _ Hp), Hn.
    destruct (non_nil (tunnel s) && String.eqb (tunnelName s) "");
      reflexivity.
  - intros [Ht Hn]. apply Hnoop.
    rewrite (non_nil_true _ Ht), Hn, String.eqb_refl. reflexivity.
  - intros Hnot [Hname Hbusy]. apply Hnoop.
    destruct (tunnel s) as [t|] eqn:Et; destruct (proxyURL s) as [u|] eqn:Ep;
      cbn [non_nil andb orb];
      destruct (String.eqb_spec (tunnelName s) name) as [En|En];
      destruct (String.eqb_spec name "") as [E0|E0];
      cbn [andb orb];
      try (split; reflexivity);
      try contradiction;
      try (exfalso; apply Hnot; split; [discriminate | exact En]);
      try (exfalso; destruct Hbusy as [Hb | [Hb _]]; apply Hb; reflexivity).
  - intros H1 H2 H3 H4 Hinv.
    assert (Hrow : name <> "" /\ proxyURL s = None /\ tunnel s = None).
    { destruct (String.eqb_spec name "") as [E0|E0];
        destruct (proxyURL s) as [u|] eqn:Ep;
        destruct (tunnel s) as [t|] eqn:Et;
        try (exfalso; apply H2; split; [exact E0 | discriminate]);
        try (exfalso; apply H1; repeat split; assumption);
        try (exfalso; apply (Hinv ltac:(discriminate)); reflexivity);
        try (exfalso; apply H4; split;
             [exact E0 | left; discriminate]);
        try (repeat split; assumption). }
    split; [exact Hrow |]. destruct Hrow as (_ & Hp & Ht).
    split.
    + intros t Hs. rewrite (Hstart Hp Ht), Hs. reflexivity.
    + intros e t Hs. rewrite (Hstart Hp Ht), Hs. destruct t; reflexivity.
Qed.

(** [MaybeStartTunnel] never panics; it leaves the session as it was
    unless there was neither proxy nor tunnel and [tunnel.Start] returned a
    tunnel, which it then stores. *)
Lemma MaybeStartTunnel_total (env : Env) (ctx : Context) (name : string)
  (st : St) :
  exists (r : option error) (st' : St),
    MaybeStartTunnel env ctx name st = Some (r, st') /\
    (sess st' = sess st \/
     exists t : tunnel.Tunnel,
       proxyURL (sess st) = None /\ tunnel (sess st) = None /\
       tunnel_Start env (hist st ++ [EvLock tunnelMu]) ctx
         {| Name := name; Session_ := sess st |} = (Some t, None) /\
       sess st' = set_proxyURL (tunnel.SOCKS5ProxyURL t)
                    (set_tunnel (Some t) (set_tunnelName name (sess st)))).
Proof.
  pose proof (MaybeStartTunnel_start env ctx name st) as Hstart.
  pose proof (MaybeStartTunnel_noop env ctx name st) as Hnoop.
  destruct (proxyURL (sess st)) as [u|] eqn:Hp;
    destruct (tunnel (sess st)) as [t|] eqn:Ht.
  4: { rewrite (Hstart eq_refl eq_refl).
       destruct (tunnel_Start env (hist st ++ [EvLock tunnelMu]) ctx
                   {| Name := name; Session_ := sess st |})
         as [[t|] [e|]] eqn:Hs;
         eexists; eexists; (split; [reflexivity |]);
         try (now left).
       right. exists t. now repeat split. }
  all: cbn [non_nil andb orb] in Hnoop;
    destruct (String.eqb (tunnelName (sess st)) name);
    destruct (String.eqb name "");
    eexists; eexists; (split; [apply Hnoop; try reflexivity;
                               split; reflexivity | now left]).
Qed.

(** A tunnel comes with a proxy: [MaybeStartTunnel] keeps this, provided
    the tunnels that [tunnel.Start] returns have a proxy URL. And it never
    replaces a proxy. *)
Lemma MaybeStartTunnel_keeps_proxy (env : Env) (ctx : Context)
  (name : string) (st st' : St) (r : option error) :
  (forall h c t,
     tunnel_Start env h ctx c = (Some t, None) ->
     tunnel.SOCKS5ProxyURL t <> None) ->
  MaybeStartTunnel env ctx name st = Some (r, st') ->
  ((tunnel (sess st) <> None -> proxyURL (sess st) <> None) ->
   (tunnel (sess st') <> None -> proxyURL (sess st') <> None)) /\
  (proxyURL (sess st) <> None -> proxyURL (sess st') = proxyURL (sess st)).
Proof.
  intros Hurl Hrun.
  destruct (MaybeStartTunnel_total env ctx name st)
    as (r0 & st0 & Hrun0 & Hcases).
  rewrite Hrun in Hrun0. injection Hrun0 as <- <-.
  destruct Hcases as [Hsame | (t & Hp & Ht & Hs & Hsess)].
  - rewrite Hsame. split; [tauto | reflexivity].
  - rewrite Hsess. simpl. split.
    + intros _ _. exact (Hurl _ _ _ Hs).
    + intros Habs. congruence.
Qed.

(** The rows of the spec's table for [MaybeStartTunnel]. *)
Inductive TunnelRow : Type :=
| NothingRequested
| ProxyKept
| SameTunnel
| AlreadyUsingProxy
| StartTunnel.

(** The spec's words, read top-down: the first row whose condition holds. *)
Definition spec_tunnel_row (name : string) (s : Session) : TunnelRow :=
  if String.eqb name "" && negb (non_nil (proxyURL s))
     && negb (non_nil (tunnel s))
  then NothingRequested
  else if String.eqb name "" && non_nil (proxyURL s)
  then ProxyKept
  else if negb (String.eqb name "") && non_nil (tunnel s)
          && String.eqb (tunnelName s) name
  then SameTunnel
  else if negb (String.eqb name "")
          && (non_nil (proxyURL s)
              || (non_nil (tunnel s) && negb (String.eqb (tunnelName s) name)))
  then AlreadyUsingProxy
  else StartTunnel.

(** Read top-down, the spec's table is what the code does on every state
    in which a tunnel comes with a proxy, as the source notes it does, and
    provided [tunnel.Start] answers the empty name with no tunnel and no
    error: the first three rows return nil and the fourth
    [ErrAlreadyUsingProxy], all without changing the session, and the last
    row is reached only with a name, no proxy and no tunnel, where the code
    starts the tunnel. *)
Lemma MaybeStartTunnel_refines_spec_table (env : Env) (ctx : Context)
  (name : string) (st : St) :
  (tunnel (sess st) <> None -> proxyURL (sess st) <> None) ->
  (forall h c, Name c = "" -> tunnel_Start env h ctx c = (None, None)) ->
  match spec_tunnel_row name (sess st) with
  | NothingRequested | ProxyKept | SameTunnel =>
      exists h : History,
        MaybeStartTunnel env ctx name st
          = Some (None, {| sess := sess st; hist := h |})
  | AlreadyUsingProxy =>
      exists h : History,
        MaybeStartTunnel env ctx name st
          = Some (Some ErrAlreadyUsingProxy, {| sess := sess st; hist := h |})
  | StartTunnel =>
      name <> "" /\ proxyURL (sess st) = None /\ tunnel (sess st) = None
  end.
Proof.
  intros Hinv Hempty.
  pose proof (MaybeStartTunnel_noop env ctx name st) as Hnoop.
  unfold spec_tunnel_row.
  destruct (String.eqb_spec name "") as [Hname|Hname];
    destruct (proxyURL (sess st)) as [u|] eqn:Hp;
    destruct (tunnel (sess st)) as [t|] eqn:Ht;
    destruct (String.eqb_spec (tunnelName (sess st)) name) as [Hsame|Hdiff];
    cbn [non_nil negb andb orb];
    try (exfalso; apply (Hinv ltac:(discriminate)); reflexivity);
    try (eexists; apply Hnoop; rewrite ?Hsame, ?Hname; cbn;
         rewrite ?String.eqb_refl; cbn;
         try (destruct (String.eqb_spec (tunnelName (sess st)) name);
              try contradiction);
         try (destruct (String.eqb_spec name ""); try contradiction);
         try (destruct (tunnelName (sess st) =? "")%string);
         repeat split; reflexivity);
    try (repeat split; assumption).
  - subst name. eexists.
    unfold MaybeStartTunnel. rewrite run_locked. run. rewrite Hp, Ht. simpl.
    rewrite Hempty by reflexivity. reflexivity.
  - subst name. eexists.
    unfold MaybeStartTunnel. rewrite run_locked. run. rewrite Hp, Ht. simpl.
    rewrite Hempty by reflexivity. reflexivity.
Qed.

(** The example session once the tor tunnel runs. *)
Definition tor_state : St := {|
  sess := set_proxyURL (Some "socks5://127.0.0.1:9050")
            (set_tunnel (Some example_tunnel)
               (set_tunnelName "tor" example_session));
  hist := [EvLock tunnelMu; EvTunnelStart "tor"; EvUnlock tunnelMu]
|}.

(** The example session with a proxy the caller configured. *)
Definition proxy_state : St := {|
  sess := set_proxyURL (Some "socks5://10.0.0.1:1080") example_session;
  hist := []
|}.

(** The five cases at the example world: no tunnel at a fresh session and
    beside a proxy change nothing; tor again changes nothing; psiphon beside
    tor is refused; tor starts at a fresh session, and psiphon fails to. *)
Lemma MaybeStartTunnel_transitions_witness :
  MaybeStartTunnel example_env context_Background "" example_state
    = Some (None,
            logged example_state
              [EvLock tunnelMu; EvTunnelStart ""; EvUnlock tunnelMu]) /\
  MaybeStartTunnel example_env context_Background "" proxy_state
    = Some (None, logged proxy_state [EvLock tunnelMu; EvUnlock tunnelMu]) /\
  MaybeStartTunnel example_env context_Background "tor" tor_state
    = Some (None, logged tor_state [EvLock tunnelMu; EvUnlock tunnelMu]) /\
  MaybeStartTunnel example_env context_Background "psiphon" tor_state
    = Some (Some ErrAlreadyUsingProxy,
            logged tor_state [EvLock tunnelMu; EvUnlock tunnelMu]) /\
  MaybeStartTunnel example_env context_Background "tor" example_state
    = Some (None, tor_state) /\
  MaybeStartTunnel example_env context_Background "psiphon" example_state
    = Some (Some (errors_New "unsupported tunnel"),
            logged example_state
              [EvLock tunnelMu; EvTunnelStart "psiphon";
               EvWarnf "cannot start tunnel: %+v"; EvUnlock tunnelMu]).
Proof.
  split; [| split; [| split; [| split; [| split]]]].
  - pose proof (MaybeStartTunnel_transitions example_env context_Background
                  "" example_state) as H.
    cbv zeta in H. destruct H as (H & _).
    apply H; [repeat split |].
    intros h c Hc. simpl. rewrite Hc. reflexivity.
  - pose proof (MaybeStartTunnel_transitions example_env context_Background
                  "" proxy_state) as H.
    cbv zeta in H. destruct H as (_ & H & _).
    apply H. split; [reflexivity | discriminate].
  - pose proof (MaybeStartTunnel_transitions example_env context_Background
                  "tor" tor_state) as H.
    cbv zeta in H. destruct H as (_ & _ & H & _).
    apply H. split; [discriminate | reflexivity].
  - pose proof (MaybeStartTunnel_transitions example_env context_Background
                  "psiphon" tor_state) as H.
    cbv zeta in H. destruct H as (_ & _ & _ & H & _).
    apply H.
    + intros [_ Hname]. discriminate Hname.
    + split; [discriminate | left; discriminate].
  - pose proof (MaybeStartTunnel_transitions example_env context_Background
                  "tor" example_state) as H.
    cbv zeta in H. destruct H as (_ & _ & _ & _ & H).
    destruct H as (_ & Hstarted & _).
    + intros [Hname _]. discriminate Hname.
    + intros [Hname _]. discriminate Hname.
    + intros [Ht _]. apply Ht. reflexivity.
    + intros [_ [Hp | [Ht _]]]; [apply Hp | apply Ht]; reflexivity.
    + intros Ht. exfalso. apply Ht. reflexivity.
    + exact (Hstarted example_tunnel eq_refl).
  - pose proof (MaybeStartTunnel_transitions example_env context_Background
                  "psiphon" example_state) as H.
    cbv zeta in H. destruct H as (_ & _ & _ & _ & H).
    destruct H as (_ & _ & Hfailed).
    + intros [Hname _]. discriminate Hname.
    + intros [Hname _]. discriminate Hname.
    + intros [Ht _]. apply Ht. reflexivity.
    + intros [_ [Hp | [Ht _]]]; [apply Hp | apply Ht]; reflexivity.
    + intros Ht. exfalso. apply Ht. reflexivity.
    + exact (Hfailed (errors_New "unsupported tunnel") None eq_refl).
Defined.

(** ** The cached location *)

Lemma count_app (p : Event -> bool) (h h' : History) :
  count p (h ++ h') = (count p h + count p h')%nat.
Proof.
  unfold count. now rewrite filter_app, length_app.
Qed.

(** A lookup is one event and leaves the session alone. *)
Lemma lookupLocationContext_run (env : Env) (ctx : Context) (st : St) :
  exists (r : result geolocate.Results) (ev : Event),
    lookupLocationContext env ctx st = Some (r, logged st [ev]) /\
    is_lookup ev = true.
Proof.
  unfold lookupLocationContext, LookupLocationContext, UserAgent. run.
  destruct (testLookupLocationContext (sess st)) as [hook|];
    eexists; eexists; split; reflexivity.
Qed.

(** A cancelled context: the pre-check returns its error at once. *)
Lemma MaybeLookupLocationContext_cancelled (env : Env) (ctx : Context)
  (st : St) (e : error) :
  ctx_Err ctx = Some e ->
  MaybeLookupLocationContext env ctx st = Some (Some e, st).
Proof.
  intros H. unfold MaybeLookupLocationContext. rewrite H. reflexivity.
Qed.

(** A live context and a cached location: nothing but the mutex. *)
Lemma MaybeLookupLocationContext_cached (env : Env) (ctx : Context)
  (st : St) :
  ctx_Err ctx = None ->
  location (sess st) <> None ->
  MaybeLookupLocationContext env ctx st
    = Some (None, logged st [EvLock mu; EvUnlock mu]).
Proof.
  intros Hctx Hloc. unfold MaybeLookupLocationContext.
  rewrite Hctx. simpl. rewrite run_locked. run.
  rewrite (non_nil_true _ Hloc). simpl. now rewrite <- app_assoc.
Qed.

(** A live context and no location: the method looks the location up and
    stores it unless the lookup returned an error. *)
Lemma MaybeLookupLocationContext_miss (env : Env) (ctx : Context) (st : St) :
  ctx_Err ctx = None ->
  location (sess st) = None ->
  MaybeLookupLocationContext env ctx st =
  match lookupLocationContext env ctx (logged st [EvLock mu]) with
  | Some ((_, Some e), st') => Some (Some e, logged st' [EvUnlock mu])
  | Some ((loc, None), st') =>
      Some (None, {| sess := set_location loc (sess st');
                     hist := hist st' ++ [EvUnlock mu] |})
  | None => None
  end.
Proof.
  intros Hctx Hloc. unfold MaybeLookupLocationContext.
  rewrite Hctx. simpl. rewrite run_locked.
  unfold bind at 1. unfold self at 1. cbn [sess logged].
  rewrite Hloc. cbn [non_nil negb]. unfold bind at 1.
  destruct (lookupLocationContext env ctx (logged st [EvLock mu]))
    as [[[loc [e|]] st']|]; reflexivity.
Qed.

(** C7, as the code has it. After a call that returned nil and cached a
    location, a later call performs no lookup and leaves the session, hence
    its location, as it was; it returns nil when its context is live (only
    the mutex is taken) and the context's error, before the mutex, when its
    context is cancelled. [MaybeLookupLocation], whose context is never
    cancelled, returns nil. *)
Theorem MaybeLookupLocationContext_idempotent (env : Env)
  (ctx1 ctx2 : Context) (st st1 : St) :
  MaybeLookupLocationContext env ctx1 st = Some (None, st1) ->
  location (sess st1) <> None ->
  (exists st2 : St,
     MaybeLookupLocationContext env ctx2 st1 = Some (ctx_Err ctx2, st2) /\
     sess st2 = sess st1 /\
     location (sess st2) = location (sess st1) /\
     count is_lookup (hist st2) = count is_lookup (hist st1) /\
     (ctx_Err ctx2 = None -> st2 = logged st1 [EvLock mu; EvUnlock mu]) /\
     (ctx_Err ctx2 <> None -> st2 = st1)) /\
  MaybeLookupLocation env st1
    = Some (None, logged st1 [EvLock mu; EvUnlock mu]).
Proof.
  intros _ Hloc.
  split;
    [| exact (MaybeLookupLocationContext_cached env context_Background st1
                eq_refl Hloc)].
  destruct (ctx_Err ctx2) as [e|] eqn:Hctx.
  - exists st1. rewrite (MaybeLookupLocationContext_cancelled _ _ _ _ Hctx).
    repeat split; congruence.
  - exists (logged st1 [EvLock mu; EvUnlock mu]).
    rewrite (MaybeLookupLocationContext_cached _ _ _ Hctx Hloc).
    split; [reflexivity |]. split; [reflexivity |]. split; [reflexivity |].
    split; [| split; [reflexivity | congruence]].
    unfold logged; simpl. rewrite count_app. unfold count. simpl. lia.
Qed.

(** The example session after its first, successful lookup. *)
Definition located_state : St := {|
  sess := set_location (Some example_location) example_session;
  hist := [EvLock mu;
           EvGeolocateRun {|
             geolocate.EnableResolverLookup := true;
             geolocate.UserAgent :=
               "miniooni/0.1.0-dev ooniprobe-engine/3.0.0"
           |};
           EvUnlock mu]
|}.

Lemma MaybeLookupLocationContext_idempotent_witness :
  exists st2 : St,
    MaybeLookupLocationContext example_env context_Background located_state
      = Some (None, st2) /\
    sess st2 = sess located_state /\
    location (sess st2) = Some example_location /\
    count is_lookup (hist st2) = 1%nat /\
    (ctx_Err context_Background = None ->
     st2 = logged located_state [EvLock mu; EvUnlock mu]) /\
    (ctx_Err context_Background <> None -> st2 = located_state).
Proof.
  exact (proj1 (MaybeLookupLocationContext_idempotent example_env
                  context_Background context_Background example_state
                  located_state eq_refl ltac:(discriminate))).
Defined.

(** C7, as stated, fails for a later call whose context is cancelled: the
    first call caches the location, the second returns the context's error
    and not nil. *)
Lemma MaybeLookupLocationContext_second_call_cancelled :
  MaybeLookupLocationContext example_env context_Background example_state
    = Some (None, located_state) /\
  location (sess located_state) = Some example_location /\
  MaybeLookupLocationContext example_env cancelled located_state
    = Some (Some ContextCanceled, located_state).
Proof.
  repeat split.
Qed.

(** A live context and no location: the call performs one lookup. *)
Lemma MaybeLookupLocationContext_looks_up (env : Env) (ctx : Context)
  (st : St) :
  ctx_Err ctx = None ->
  location (sess st) = None ->
  exists (r : option error) (st' : St),
    MaybeLookupLocationContext env ctx st = Some (r, st') /\
    count is_lookup (hist st') = S (count is_lookup (hist st)).
Proof.
  intros Hctx Hloc.
  rewrite (MaybeLookupLocationContext_miss _ _ _ Hctx Hloc).
  destruct (lookupLocationContext_run env ctx (logged st [EvLock mu]))
    as ([loc [e|]] & ev & Hrun & Hev); rewrite Hrun;
    eexists; eexists; (split; [reflexivity |]);
    unfold logged; simpl; rewrite <- !app_assoc, count_app;
    unfold count; simpl; rewrite Hev; simpl; lia.
Qed.

(** C9. When the lookup that a call with a live context performs, for a
    session without a location, returns an error, the call returns that
    error and the session is as before: its location is still nil. The
    failure is not cached: a later call with a live context, such as
    [MaybeLookupLocation], performs one more lookup. *)
Theorem MaybeLookupLocationContext_failure_not_cached (env : Env)
  (ctx : Context) (st st' : St) (r : option geolocate.Results) (e : error) :
  ctx_Err ctx = None ->
  location (sess st) = None ->
  lookupLocationContext env ctx (logged st [EvLock mu])
    = Some ((r, Some e), st') ->
  let st1 := logged st' [EvUnlock mu] in
  MaybeLookupLocationContext env ctx st = Some (Some e, st1) /\
  sess st1 = sess st /\
  location (sess st1) = None /\
  (forall ctx2 : Context,
     ctx_Err ctx2 = None ->
     exists (r2 : option error) (st2 : St),
       MaybeLookupLocationContext env ctx2 st1 = Some (r2, st2) /\
       count is_lookup (hist st2) = S (count is_lookup (hist st1))) /\
  exists (r2 : option error) (st2 : St),
    MaybeLookupLocation env st1 = Some (r2, st2) /\
    count is_lookup (hist st2) = S (count is_lookup (hist st1)).
Proof.
  intros Hctx Hloc Hfail st1.
  assert (Hsess : sess st1 = sess st).
  { destruct (lookupLocationContext_run env ctx (logged st [EvLock mu]))
      as (r0 & ev & Hrun & _).
    rewrite Hrun in Hfail. injection Hfail as _ <-. reflexivity. }
  assert (Hloc1 : location (sess st1) = None) by congruence.
  split; [| split; [exact Hsess | split; [exact Hloc1 | split]]].
  - rewrite (MaybeLookupLocationContext_miss _ _ _ Hctx Hloc), Hfail.
    reflexivity.
  - intros ctx2 Hctx2.
    exact (MaybeLookupLocationContext_looks_up env ctx2 st1 Hctx2 Hloc1).
  - exact (MaybeLookupLocationContext_looks_up env context_Background st1
             eq_refl Hloc1).
Qed.

(** The example world with another location service. *)
Definition with_geolocate_Run
  (run : History -> geolocate.Config -> Context -> result geolocate.Results)
  (env : Env) : Env := {|
  platform_Name := platform_Name env;
  version_Version := version_Version env;
  DefaultProbeASN := DefaultProbeASN env;
  DefaultProbeNetworkName := DefaultProbeNetworkName env;
  DefaultProbeIP := DefaultProbeIP env;
  DefaultResolverASN := DefaultResolverASN env;
  DefaultResolverIP := DefaultResolverIP env;
  DefaultResolverNetworkName := DefaultResolverNetworkName env;
  probeservices_Default := probeservices_Default env;
  probeservices_TryAll := probeservices_TryAll env;
  probeservices_NewClient := probeservices_NewClient env;
  geolocate_Run := run;
  tunnel_Start := tunnel_Start env;
  ioutil_TempDir := ioutil_TempDir env
|}.

(** A world whose first location lookup fails and whose later ones
    succeed. *)
Definition flaky_env : Env :=
  with_geolocate_Run
    (fun h _ _ =>
       if (count is_lookup h =? 0)%nat
       then (None, Some (errors_New "lookupProbeIP failed"))
       else (Some example_location, None))
    example_env.

(** The example session after a failed lookup in the flaky world. *)
Definition unlocated_state : St :=
  logged example_state
    [EvLock mu;
     EvGeolocateRun {|
       geolocate.EnableResolverLookup := true;
       geolocate.UserAgent := "miniooni/0.1.0-dev ooniprobe-engine/3.0.0"
     |};
     EvUnlock mu].

Lemma MaybeLookupLocationContext_failure_not_cached_witness :
  MaybeLookupLocationContext flaky_env context_Background example_state
    = Some (Some (errors_New "lookupProbeIP failed"), unlocated_state) /\
  sess unlocated_state = example_session /\
  location (sess unlocated_state) = None /\
  exists (r2 : option error) (st2 : St),
    MaybeLookupLocationContext flaky_env context_Background unlocated_state
      = Some (r2, st2) /\
    count is_lookup (hist st2) = 2%nat.
Proof.
  pose proof (MaybeLookupLocationContext_failure_not_cached flaky_env
                context_Background example_state
                (logged example_state
                   [EvLock mu;
                    EvGeolocateRun {|
                      geolocate.EnableResolverLookup := true;
                      geolocate.UserAgent :=
                        "miniooni/0.1.0-dev ooniprobe-engine/3.0.0"
                    |}])
                None (errors_New "lookupProbeIP failed")
                eq_refl eq_refl eq_refl) as H.
  cbv zeta in H. destruct H as (H1 & H2 & H3 & H4 & _).
  split; [exact H1 | split; [exact H2 | split; [exact H3 |]]].
  destruct (H4 context_Background eq_refl) as (r2 & st2 & Hrun & Hcount).
  exists r2, st2. split; [exact Hrun | exact Hcount].
Defined.

(** ** Selecting a backend *)

Lemma faster_cases (best c : probeservices.Candidate) :
  probeservices.faster best c = best \/ probeservices.faster best c = c.
Proof.
  unfold probeservices.faster.
  destruct (probeservices.Duration c <? probeservices.Duration best)%Z; auto.
Qed.

Lemma fold_faster_In (rest : list probeservices.Candidate) :
  forall c, In (fold_left probeservices.faster rest c) (c :: rest).
Proof.
  induction rest as [|d rest IH]; intros c; cbn [fold_left].
  - now left.
  - destruct (IH (probeservices.faster c d)) as [H|H].
    + rewrite <- H.
      destruct (faster_cases c d) as [E|E]; rewrite E;
        [now left | right; now left].
    + right. now right.
Qed.

(** [SelectBest] returns nil exactly when every candidate failed, and
    otherwise one of the candidates that succeeded. *)
Lemma SelectBest_spec (candidates : list probeservices.Candidate) :
  match probeservices.SelectBest candidates with
  | None => Forall (fun c => probeservices.Err c <> None) candidates
  | Some selected =>
      In selected candidates /\ probeservices.Err selected = None
  end.
Proof.
  unfold probeservices.SelectBest.
  destruct (filter _ candidates) as [|c rest] eqn:Hf.
  - apply Forall_forall. intros c Hin Herr.
    assert (Hc : In c (filter (fun c => match probeservices.Err c with
                                         | None => true
                                         | Some _ => false
                                         end) candidates)).
    { apply filter_In. split; [exact Hin | now rewrite Herr]. }
    rewrite Hf in Hc. exact Hc.
  - pose proof (fold_faster_In rest c) as Hin. rewrite <- Hf in Hin.
    apply filter_In in Hin. destruct Hin as [Hin Hok]. split; [exact Hin|].
    destruct (probeservices.Err (fold_left probeservices.faster rest c));
      [discriminate | reflexivity].
Qed.


(** The session with one more selection attempt counted. *)
Definition counted (s : Session) : Session :=
  set_queryProbeServicesCount (int64_add (queryProbeServicesCount s) 1) s.

(** The services a selection benchmarks: the configured ones, or the
    defaults when none is configured. *)
Definition candidates_services (env : Env) (s : Session)
  : list model.Service :=
  if (0 <? length (availableProbeServices s))%nat
  then availableProbeServices s
  else probeservices_Default env.

(** The candidates that [probeservices.TryAll] returns to a selection. *)
Definition pass_outcomes (env : Env) (ctx : Context) (st : St)
  : list probeservices.Candidate :=
  probeservices_TryAll env (hist st ++ [EvLock mu]) ctx (counted (sess st))
    (candidates_services env (sess st)).

(** A probe service is already selected: nothing but the mutex, whatever
    the context. *)
Lemma MaybeLookupBackendsContext_selected (env : Env) (ctx : Context)
  (st : St) :
  selectedProbeService (sess st) <> None ->
  MaybeLookupBackendsContext env ctx st
    = Some (None, logged st [EvLock mu; EvUnlock mu]).
Proof.
  intros H. unfold MaybeLookupBackendsContext. rewrite run_locked. run.
  rewrite (non_nil_true _ H). simpl. now rewrite <- app_assoc.
Qed.

(** No probe service is selected: one attempt is counted,
    [probeservices.TryAll] is called once, and the best of the candidates it
    returns decides. *)
Lemma MaybeLookupBackendsContext_run (env : Env) (ctx : Context) (st : St) :
  selectedProbeService (sess st) = None ->
  MaybeLookupBackendsContext env ctx st =
  match probeservices.SelectBest (pass_outcomes env ctx st) with
  | None =>
      Some (Some ErrAllProbeServicesFailed,
            {| sess := counted (sess st);
               hist := hist st ++
                 [EvLock mu; EvTryAll (candidates_services env (sess st));
                  EvUnlock mu] |})
  | Some selected =>
      Some (None,
            {| sess := set_availableTestHelpers
                         (probeservices.TestHelpers selected)
                         (set_selectedProbeService
                            (Some (probeservices.Endpoint selected))
                            (counted (sess st)));
               hist := hist st ++
                 [EvLock mu; EvTryAll (candidates_services env (sess st));
                  EvInfof "session: using probe services: %+v";
                  EvUnlock mu] |})
  end.
Proof.
  intros H. unfold MaybeLookupBackendsContext, pass_outcomes,
    candidates_services, getAvailableProbeServicesUnlocked, counted.
  rewrite run_locked. run. rewrite H. simpl.
  destruct (0 <? length (availableProbeServices (sess st)))%nat; simpl;
    match goal with
    | |- context [probeservices.SelectBest ?cs] =>
        destruct (probeservices.SelectBest cs) as [sel|]
    end; simpl; rewrite <- ?app_assoc; reflexivity.
Qed.

(** A world whose [probeservices.TryAll] is another function. *)
Definition with_TryAll
  (tryAll : History -> Context -> Session -> list model.Service ->
            list probeservices.Candidate)
  (env : Env) : Env := {|
  platform_Name := platform_Name env;
  version_Version := version_Version env;
  DefaultProbeASN := DefaultProbeASN env;
  DefaultProbeNetworkName := DefaultProbeNetworkName env;
  DefaultProbeIP := DefaultProbeIP env;
  DefaultResolverASN := DefaultResolverASN env;
  DefaultResolverIP := DefaultResolverIP env;
  DefaultResolverNetworkName := DefaultResolverNetworkName env;
  probeservices_Default := probeservices_Default env;
  probeservices_TryAll := tryAll;
  probeservices_NewClient := probeservices_NewClient env;
  geolocate_Run := geolocate_Run env;
  tunnel_Start := tunnel_Start env;
  ioutil_TempDir := ioutil_TempDir env
|}.


(** A candidate failed, or succeeded. *)
Definition failed (c : probeservices.Candidate) : Prop :=
  probeservices.Err c <> None.

Definition succeeded (c : probeservices.Candidate) : Prop :=
  probeservices.Err c = None.





Lemma failed_not_succeeded (candidates : list probeservices.Candidate) :
  Forall failed candidates -> Exists succeeded candidates -> False.
Proof.
  intros Hall Hex. apply Exists_exists in Hex. destruct Hex as (c & Hin & Hok).
  rewrite Forall_forall in Hall. exact (Hall c Hin Hok).
Qed.







(** A world where no probe service answers. *)
Definition offline_env : Env :=
  with_TryAll
    (fun _ _ _ services =>
       map (fun endpoint => {|
              probeservices.Duration := 30000;
              probeservices.Err := Some (errors_New "connection refused");
              probeservices.Endpoint := endpoint;
              probeservices.TestHelpers := []
            |}) services)
    example_env.

(** The example session after a selection that failed. *)
Definition unselected_state : St := {|
  sess := counted example_session;
  hist := [EvLock mu; EvTryAll [example_service]; EvUnlock mu]
|}.

(** ** Cancelled contexts *)

Lemma NewProbeServicesClient_cancelled (env : Env) (ctx : Context)
  (st : St) (e : error) :
  ctx_Err ctx = Some e ->
  NewProbeServicesClient env ctx st = Some ((None, Some e), st).
Proof.
  intros H. unfold NewProbeServicesClient. rewrite H. reflexivity.
Qed.

(** C6, as the code has it. Given a context that is cancelled at entry,
    [MaybeLookupLocationContext] and [NewProbeServicesClient] return the
    context's error from a pre-check: no lock is taken, nothing is called
    and the session is untouched. [MaybeLookupBackendsContext] has no
    pre-check: it takes the mutex; it returns nil when a probe service is
    already selected, and otherwise counts an attempt, calls
    [probeservices.TryAll] once and returns nil or
    [ErrAllProbeServicesFailed]. *)
Theorem cancelled_context_at_entry (env : Env) (ctx : Context) (st : St)
  (e : error) :
  ctx_Err ctx = Some e ->
  MaybeLookupLocationContext env ctx st = Some (Some e, st) /\
  NewProbeServicesClient env ctx st = Some ((None, Some e), st) /\
  (selectedProbeService (sess st) <> None ->
   MaybeLookupBackendsContext env ctx st
     = Some (None, logged st [EvLock mu; EvUnlock mu])) /\
  (selectedProbeService (sess st) = None ->
   exists (r : option error) (st' : St),
     MaybeLookupBackendsContext env ctx st = Some (r, st') /\
     (r = None \/ r = Some ErrAllProbeServicesFailed) /\
     count is_TryAll (hist st') = S (count is_TryAll (hist st)) /\
     queryProbeServicesCount (sess st')
       = int64_add (queryProbeServicesCount (sess st)) 1).
Proof.
  intros Hctx.
  split; [exact (MaybeLookupLocationContext_cancelled env ctx st e Hctx) |].
  split; [exact (NewProbeServicesClient_cancelled env ctx st e Hctx) |].
  split; [exact (MaybeLookupBackendsContext_selected env ctx st) |].
  intros Hsel. rewrite (MaybeLookupBackendsContext_run env ctx st Hsel).
  destruct (probeservices.SelectBest (pass_outcomes env ctx st)) as [sel|];
    eexists; eexists; (split; [reflexivity |]);
    (split; [auto |]); simpl; rewrite !count_app; unfold count; simpl;
    (split; [lia | reflexivity]).
Qed.

(** The example session once a probe service is selected. *)
Definition selected_state : St := {|
  sess := set_selectedProbeService (Some example_service) example_session;
  hist := []
|}.

Lemma cancelled_context_at_entry_witness :
  MaybeLookupLocationContext example_env cancelled example_state
    = Some (Some ContextCanceled, example_state) /\
  NewProbeServicesClient example_env cancelled example_state
    = Some ((None, Some ContextCanceled), example_state) /\
  MaybeLookupBackendsContext example_env cancelled selected_state
    = Some (None, logged selected_state [EvLock mu; EvUnlock mu]).
Proof.
  split; [| split].
  - exact (proj1 (cancelled_context_at_entry example_env cancelled
                    example_state ContextCanceled eq_refl)).
  - exact (proj1 (proj2 (cancelled_context_at_entry example_env cancelled
                           example_state ContextCanceled eq_refl))).
  - apply (proj1 (proj2 (proj2 (cancelled_context_at_entry example_env
                                  cancelled selected_state ContextCanceled
                                  eq_refl)))).
    discriminate.
Defined.

(** C6, as stated, fails for [MaybeLookupBackendsContext]. With a cancelled
    context and a probe service already selected it takes the mutex and
    returns nil; with none selected it takes the mutex, counts an attempt,
    calls [probeservices.TryAll] and returns [ErrAllProbeServicesFailed].
    Neither is the context's error, and neither leaves the history alone. *)
Lemma MaybeLookupBackendsContext_has_no_precheck :
  ctx_Err cancelled = Some ContextCanceled /\
  MaybeLookupBackendsContext example_env cancelled selected_state
    = Some (None, logged selected_state [EvLock mu; EvUnlock mu]) /\
  MaybeLookupBackendsContext example_env cancelled example_state
    = Some (Some ErrAllProbeServicesFailed, unselected_state).
Proof.
  repeat split.
Qed.

(** ** The check-in *)

(** [ProbeASNString] and [ProbeCC] read under the mutex; the other defaults
    take no lock. *)
Definition fill_events (config : model.CheckInConfig) : list Event :=
  (if String.eqb (model.ProbeASN config) ""
   then [EvLock mu; EvUnlock mu] else []) ++
  (if String.eqb (model.ProbeCC config) ""
   then [EvLock mu; EvUnlock mu] else []).

Lemma or_default_spec (field default : string) :
  (field = "" -> or_default field default = default) /\
  (field <> "" -> or_default field default = field).
Proof.
  unfold or_default. destruct (String.eqb_spec field ""); split; congruence.
Qed.

Lemma ProbeASN_run (env : Env) (st : St) :
  ProbeASN env st
    = Some (match location (sess st) with
            | Some l => geolocate.ASN l
            | None => DefaultProbeASN env
            end, logged st [EvLock mu; EvUnlock mu]).
Proof.
  unfold ProbeASN. rewrite run_locked. run. now rewrite <- app_assoc.
Qed.

Lemma ProbeCC_run (st : St) :
  ProbeCC st
    = Some (match location (sess st) with
            | Some l => geolocate.CountryCode l
            | None => geolocate.DefaultProbeCC
            end, logged st [EvLock mu; EvUnlock mu]).
Proof.
  unfold ProbeCC. rewrite run_locked. run. now rewrite <- app_assoc.
Qed.

(** The assignments of [CheckIn] compute the spec's defaults. *)
Lemma fillDefaults_run (env : Env) (config : model.CheckInConfig) (st : St) :
  fillDefaults env config st
    = Some (spec_config_with_defaults env (sess st) config,
            logged st (fill_events config)).
Proof.
  unfold fillDefaults, Platform, ProbeASNString, ProbeASN, ProbeCC,
    SoftwareName, SoftwareVersion, spec_config_with_defaults, or_default,
    fill_events, locked.
  destruct config as [p a c r n v [codes]]. destruct st as [s h]. run.
  destruct codes;
    destruct (String.eqb p ""); simpl;
    destruct (String.eqb a ""); simpl;
    destruct (String.eqb c ""); simpl;
    destruct (String.eqb r ""); simpl;
    destruct (String.eqb n ""); simpl;
    destruct (String.eqb v ""); simpl;
    rewrite <- ?app_assoc, ?app_nil_r; reflexivity.
Qed.

(** Once the location and the client are there, [CheckIn] fills the
    defaults in the caller's config, hands a copy to the client, and
    returns the client's answer. *)
Lemma CheckIn_forwarded (env : Env) (ctx : Context)
  (config : model.CheckInConfig) (st st1 st2 : St)
  (client : sessionProbeServicesClientForCheckIn) :
  maybeLookupLocationContext env ctx st = Some (None, st1) ->
  newProbeServicesClientForCheckIn env ctx st1
    = Some ((Some client, None), st2) ->
  let config' := spec_config_with_defaults env (sess st2) config in
  let h := hist st2 ++ fill_events config in
  CheckIn env ctx config st
    = Some ((client_CheckIn client h ctx config', config'),
            {| sess := sess st2; hist := h ++ [EvClientCheckIn config'] |}).
Proof.
  intros Hloc Hclient config' h. unfold CheckIn.
  unfold bind at 1. rewrite Hloc. cbn [non_nil].
  unfold bind at 1. rewrite Hclient. cbn [non_nil].
  unfold bind at 1. rewrite fillDefaults_run. reflexivity.
Qed.

(** C4. When the location is known and the client is built, [CheckIn]
    forwards to the client the config in which exactly the empty fields
    are filled: [Platform] with the platform name, [ProbeASN] with ["AS"]
    and the decimal ASN, [ProbeCC] with the probe's country code, [RunType]
    with ["timed"], [SoftwareName] and [SoftwareVersion] with the
    session's, and a nil [CategoryCodes] with the empty list. Every other
    field is forwarded as it was. *)
Theorem CheckIn_fills_defaults (env : Env) (ctx : Context)
  (config : model.CheckInConfig) (st st1 st2 : St)
  (client : sessionProbeServicesClientForCheckIn) :
  maybeLookupLocationContext env ctx st = Some (None, st1) ->
  newProbeServicesClientForCheckIn env ctx st1
    = Some ((Some client, None), st2) ->
  exists (config' : model.CheckInConfig) (h : History),
    CheckIn env ctx config st
      = Some ((client_CheckIn client h ctx config', config'),
              {| sess := sess st2; hist := h ++ [EvClientCheckIn config'] |}) /\
    config' = spec_config_with_defaults env (sess st2) config /\
    (forall asn cc,
       ProbeASN env st2 = Some (asn, logged st2 [EvLock mu; EvUnlock mu]) ->
       ProbeCC st2 = Some (cc, logged st2 [EvLock mu; EvUnlock mu]) ->
       let fills (old new default : string) :=
         (old = "" -> new = default) /\ (old <> "" -> new = old) in
       fills (model.Platform config) (model.Platform config')
         (platform_Name env) /\
       fills (model.ProbeASN config) (model.ProbeASN config')
         ("AS" ++ Sprintf_d asn)%string /\
       fills (model.ProbeCC config) (model.ProbeCC config') cc /\
       fills (model.RunType config) (model.RunType config') "timed" /\
       fills (model.SoftwareName config) (model.SoftwareName config')
         (softwareName (sess st2)) /\
       fills (model.SoftwareVersion config) (model.SoftwareVersion config')
         (softwareVersion (sess st2)) /\
       (model.CategoryCodes (model.WebConnectivity config) = None ->
        model.CategoryCodes (model.WebConnectivity config') = Some []) /\
       (model.CategoryCodes (model.WebConnectivity config) <> None ->
        model.CategoryCodes (model.WebConnectivity config')
          = model.CategoryCodes (model.WebConnectivity config))).
Proof.
  intros Hloc Hclient.
  exists (spec_config_with_defaults env (sess st2) config),
         (hist st2 ++ fill_events config).
  split; [exact (CheckIn_forwarded env ctx config st st1 st2 client
                   Hloc Hclient) |].
  split; [reflexivity |].
  intros asn cc Hasn Hcc fills.
  rewrite ProbeASN_run in Hasn. rewrite ProbeCC_run in Hcc.
  injection Hasn as Easn. injection Hcc as Ecc.
  subst asn cc. subst fills. cbv beta. simpl.
  repeat split; try (apply or_default_spec);
    destruct (model.CategoryCodes (model.WebConnectivity config));
    congruence.
Qed.

(** The example session once it is located and a backend is selected. *)
Definition checked_in_session : Session :=
  set_availableTestHelpers []
    (set_selectedProbeService (Some example_service)
       (counted (set_location (Some example_location) example_session))).

(** The example config with its empty fields filled at the example
    session. *)
Definition example_config_filled : model.CheckInConfig := {|
  model.Platform := "linux";
  model.ProbeASN := "AS30722";
  model.ProbeCC := "US";
  model.RunType := "timed";
  model.SoftwareName := "miniooni";
  model.SoftwareVersion := "9.9.9";
  model.WebConnectivity := {| model.CategoryCodes := Some [] |}
|}.

(** The example state once the client for the check-in is built. *)
Definition client_state : St := {|
  sess := checked_in_session;
  hist := hist located_state ++
    [EvLock mu; EvTryAll [example_service];
     EvInfof "session: using probe services: %+v"; EvUnlock mu;
     EvLock mu; EvUnlock mu; EvNewClient example_service]
|}.

Lemma CheckIn_fills_defaults_witness :
  exists (config' : model.CheckInConfig) (h : History),
    CheckIn example_env context_Background example_config example_state
      = Some ((client_CheckIn example_client h context_Background config',
               config'),
              {| sess := checked_in_session;
                 hist := h ++ [EvClientCheckIn config'] |}) /\
    config' = example_config_filled.
Proof.
  destruct (CheckIn_fills_defaults example_env context_Background
              example_config example_state located_state client_state
              example_client eq_refl eq_refl)
    as (config' & h & Hrun & Hconfig & _).
  exists config', h. split; [exact Hrun | exact Hconfig].
Defined.

(** C10. [CheckIn] writes through the caller's pointer. When the location
    lookup fails, or the construction of the client fails, the caller's
    config is as it was. Otherwise the caller's config holds the defaults
    when the method returns, whatever the client answers, an error
    included. *)
Theorem CheckIn_config_in_place (env : Env) (ctx : Context)
  (config : model.CheckInConfig) (st : St) :
  (forall (e : error) (st1 : St),
     maybeLookupLocationContext env ctx st = Some (Some e, st1) ->
     CheckIn env ctx config st = Some (((None, Some e), config), st1)) /\
  (forall (st1 st2 : St) (e : error)
          (client : option sessionProbeServicesClientForCheckIn),
     maybeLookupLocationContext env ctx st = Some (None, st1) ->
     newProbeServicesClientForCheckIn env ctx st1
       = Some ((client, Some e), st2) ->
     CheckIn env ctx config st = Some (((None, Some e), config), st2)) /\
  (forall (st1 st2 : St) (client : sessionProbeServicesClientForCheckIn),
     maybeLookupLocationContext env ctx st = Some (None, st1) ->
     newProbeServicesClientForCheckIn env ctx st1
       = Some ((Some client, None), st2) ->
     exists (answer : result model.CheckInInfo) (st3 : St),
       CheckIn env ctx config st
         = Some ((answer, spec_config_with_defaults env (sess st2) config),
                 st3) /\
       answer = client_CheckIn client (hist st2 ++ fill_events config) ctx
                  (spec_config_with_defaults env (sess st2) config) /\
       sess st3 = sess st2).
Proof.
  split; [| split].
  - intros e st1 Hloc. unfold CheckIn.
    unfold bind at 1. rewrite Hloc. reflexivity.
  - intros st1 st2 e client Hloc Hclient. unfold CheckIn.
    unfold bind at 1. rewrite Hloc. cbn [non_nil].
    unfold bind at 1. rewrite Hclient. reflexivity.
  - intros st1 st2 client Hloc Hclient.
    pose proof (CheckIn_forwarded env ctx config st st1 st2 client
                  Hloc Hclient) as Hrun.
    cbv zeta in Hrun. eexists. eexists. split; [exact Hrun |].
    split; reflexivity.
Qed.

(** The located example state once the offline world has refused a
    backend. *)
Definition refused_state : St := {|
  sess := counted (sess located_state);
  hist := hist located_state ++
    [EvLock mu; EvTryAll [example_service]; EvUnlock mu]
|}.

(** The three cases: a failed lookup in the flaky world and no backend in
    the offline world leave the example config alone; in the example world
    the remote call fails and the caller still sees the defaults. *)
Lemma CheckIn_config_in_place_witness :
  CheckIn flaky_env context_Background example_config example_state
    = Some (((None, Some (errors_New "lookupProbeIP failed")),
             example_config), unlocated_state) /\
  CheckIn offline_env context_Background example_config example_state
    = Some (((None, Some ErrAllProbeServicesFailed), example_config),
            refused_state) /\
  (exists st3 : St,
     CheckIn example_env context_Background example_config example_state
       = Some (((None, Some (errors_New "502")), example_config_filled),
               st3)).
Proof.
  split; [| split].
  - exact (proj1 (CheckIn_config_in_place flaky_env context_Background
                    example_config example_state)
             (errors_New "lookupProbeIP failed") unlocated_state eq_refl).
  - exact (proj1 (proj2 (CheckIn_config_in_place offline_env
                           context_Background example_config example_state))
             located_state refused_state ErrAllProbeServicesFailed None
             eq_refl eq_refl).
  - destruct (proj2 (proj2 (CheckIn_config_in_place example_env
                              context_Background example_config
                              example_state))
                located_state client_state example_client eq_refl eq_refl)
      as (answer & st3 & Hrun & Hanswer & _).
    exists st3. rewrite Hrun, Hanswer. reflexivity.
Defined.

End SessionTheory.

(** * Properties of the tactics policies *)
Module PolicyTheory.
Import enginenetx.

(** The tactic the DNS policy derives from one resolved address. *)
Definition dns_tactic (domain port addr : string) : httpsDialerTactic := {|
  Address := addr;
  InitialDelay := 0;
  Port := port;
  SNI := domain;
  VerifyHostname := domain
|}.

(** The tactic that reaches a bridge under a decoy SNI. *)
Definition bridge_tactic (domain port sni : string) : httpsDialerTactic := {|
  Address := "162.55.247.208";
  InitialDelay := 0;
  Port := port;
  SNI := sni;
  VerifyHostname := domain
|}.

(** Whether a tactic goes to the given address under the given SNI. *)
Definition goes_to (addr sni : string) (t : httpsDialerTactic) : bool :=
  String.eqb (Address t) addr && String.eqb (SNI t) sni.

(** The resolvers of the tests: one that fails, one that answers every
    domain with the same addresses. *)
Definition failing_resolver : Resolver :=
  {| LookupHost := fun _ _ => (None, Some (errors_New "mocked error")) |}.

Definition constant_resolver (addrs : list string) : Resolver :=
  {| LookupHost := fun _ _ => (Some addrs, None) |}.

(** Tables for the examples. *)
Definition example_bridgesDomains : list string :=
  ["www.example.org"; "cdn.example.net"; "static.example.com"].

Definition example_testHelpersDomains : list string :=
  ["0.th.ooni.org"; "1.th.ooni.org"].

(** A stream for the test-helper domains of the examples: bridge tactics
    only. *)
Definition example_testHelpersTactics (domain port : string)
  (fallback : list httpsDialerTactic) : list httpsDialerTactic :=
  map (fun sni => {|
         Address := "164.92.180.7";
         InitialDelay := 0;
         Port := port;
         SNI := sni;
         VerifyHostname := domain
       |}) example_bridgesDomains.

Section Policies.

Variable bridgesDomains : list string.
Variable bridgesPolicyTestHelpersDomains : list string.
Variable testHelpersTactics :
  string -> string -> list httpsDialerTactic -> list httpsDialerTactic.

(** The bridges policy with these tables. *)
Definition bridges : httpsDialerPolicy -> httpsDialerPolicy :=
  bridgesPolicy bridgesDomains bridgesPolicyTestHelpersDomains
    testHelpersTactics.

Lemma dnsPolicy_run (resolver : Resolver) (ctx : Context)
  (domain port : string) :
  LookupTactics (dnsPolicy resolver) ctx domain port =
  match LookupHost resolver ctx domain with
  | (_, Some _) => []
  | (addrs, None) => map (dns_tactic domain port) (elements addrs)
  end.
Proof.
  simpl. destruct (LookupHost resolver ctx domain) as [addrs [e|]];
    reflexivity.
Qed.

Lemma bridgesTacticsForDomain_run (domain port : string) :
  bridgesTacticsForDomain bridgesDomains domain port
    = map (bridge_tactic domain port) bridgesDomains.
Proof.
  unfold bridgesTacticsForDomain, bridgesAddrs. simpl.
  now rewrite app_nil_r.
Qed.

Lemma existsb_eqb_false (domain : string) (l : list string) :
  ~ In domain l -> existsb (String.eqb domain) l = false.
Proof.
  intros H. destruct (existsb (String.eqb domain) l) eqn:E; [|reflexivity].
  apply existsb_exists in E. destruct E as (x & Hin & Heq).
  apply String.eqb_eq in Heq. subst x. contradiction.
Qed.

(** C2. For a domain that is neither bridged nor a test helper, and any
    port: when the resolver fails the DNS policy emits no tactic, and when
    it succeeds the policy emits, for each resolved address in order, the
    tactic with that address, the requested port, no delay, and the
    requested domain as SNI and as hostname to verify. The bridges policy
    passes this stream through. A stream is all [LookupTactics] returns:
    the failure shows as the empty stream only. *)
Theorem dnsPolicy_one_tactic_per_address (resolver : Resolver)
  (ctx : Context) (domain port : string) :
  domain <> bridgedDomain ->
  ~ In domain bridgesPolicyTestHelpersDomains ->
  let dns := dnsPolicy resolver in
  LookupTactics (bridges dns) ctx domain port
    = LookupTactics dns ctx domain port /\
  (forall addrs e,
     LookupHost resolver ctx domain = (addrs, Some e) ->
     LookupTactics dns ctx domain port = []) /\
  (forall addrs,
     LookupHost resolver ctx domain = (addrs, None) ->
     LookupTactics dns ctx domain port
       = map (fun addr => {| Address := addr;
                             InitialDelay := 0;
                             Port := port;
                             SNI := domain;
                             VerifyHostname := domain |})
             (elements addrs) /\
     length (LookupTactics dns ctx domain port) = length (elements addrs)).
Proof.
  intros Hbridged Hth dns. split; [| split].
  - unfold bridges, bridgesPolicy. cbn [LookupTactics].
    destruct (String.eqb_spec domain bridgedDomain) as [E|_];
      [contradiction |].
    now rewrite (existsb_eqb_false _ _ Hth).
  - intros addrs e H. unfold dns. now rewrite dnsPolicy_run, H.
  - intros addrs H. unfold dns. rewrite dnsPolicy_run, H.
    split; [reflexivity | apply length_map].
Qed.

Lemma filter_goes_to_bridges (domain port addr : string) (snis : list string) :
  ~ In domain snis ->
  filter (goes_to addr domain) (map (bridge_tactic domain port) snis) = [].
Proof.
  induction snis as [|sni snis IH]; intros Hnot; simpl; [reflexivity |].
  unfold goes_to at 1. simpl.
  destruct (String.eqb_spec sni domain) as [E|_].
  - exfalso. apply Hnot. left. exact E.
  - rewrite andb_false_r. apply IH. intros Hin. apply Hnot. now right.
Qed.

(** C1. For the bridged domain on port 443, when the resolver of the DNS
    fallback answers with one address, the stream of the bridges policy
    has at least two tactics. Its last tactic has the resolved address and
    the SNI ["api.ooni.io"], and it is the only such tactic; every tactic
    before it goes to 162.55.247.208 under another SNI. Every tactic
    verifies ["api.ooni.io"], uses port 443 and has no initial delay. The
    table of decoy SNIs is not empty and does not hold the bridged
    domain; the DNS tactic comes right after one tactic per decoy SNI,
    which with 152 of them is position 153, where the test expects it. *)
Theorem bridgesPolicy_dns_tactic_last (resolver : Resolver) (ctx : Context)
  (addr : string) :
  bridgesDomains <> [] ->
  ~ In "api.ooni.io" bridgesDomains ->
  LookupHost resolver ctx "api.ooni.io" = (Some [addr], None) ->
  let tactics :=
    LookupTactics (bridges (dnsPolicy resolver)) ctx "api.ooni.io" "443" in
  2 <= length tactics /\
  (exists (before : list httpsDialerTactic) (final : httpsDialerTactic),
     tactics = before ++ [final] /\
     Address final = addr /\
     SNI final = "api.ooni.io" /\
     Forall (fun t => Address t = "162.55.247.208" /\
                      SNI t <> "api.ooni.io") before) /\
  length (filter (goes_to addr "api.ooni.io") tactics) = 1 /\
  Forall (fun t => VerifyHostname t = "api.ooni.io" /\
                   Port t = "443" /\
                   InitialDelay t = 0%Z) tactics /\
  length tactics = S (length bridgesDomains).
Proof.
  intros Hne Hnot Hdns tactics.
  assert (Htactics :
    tactics = map (bridge_tactic "api.ooni.io" "443") bridgesDomains
              ++ [dns_tactic "api.ooni.io" "443" addr]).
  { subst tactics. unfold bridges, bridgesPolicy. cbn [LookupTactics].
    rewrite bridgesTacticsForDomain_run.
    change (LookupTactics (dnsPolicy resolver) ctx "api.ooni.io" "443")
      with (let '(addrs, err) := LookupHost resolver ctx "api.ooni.io" in
            match err with
            | Some _ => []
            | None => map (dns_tactic "api.ooni.io" "443") (elements addrs)
            end).
    rewrite Hdns. reflexivity. }
  rewrite Htactics. split; [| split; [| split; [| split]]].
  5: { rewrite length_app, length_map. simpl. lia. }
  - rewrite length_app, length_map. simpl.
    destruct bridgesDomains; [congruence | simpl; lia].
  - exists (map (bridge_tactic "api.ooni.io" "443") bridgesDomains),
           (dns_tactic "api.ooni.io" "443" addr).
    repeat split. apply Forall_forall. intros t Hin.
    apply in_map_iff in Hin. destruct Hin as (sni & <- & Hin).
    split; [reflexivity |]. simpl. intros E. apply Hnot. now rewrite <- E.
  - rewrite filter_app, (filter_goes_to_bridges _ _ _ _ Hnot). simpl.
    unfold goes_to. simpl. now rewrite !String.eqb_refl.
  - apply Forall_app. split.
    + apply Forall_forall. intros t Hin. apply in_map_iff in Hin.
      destruct Hin as (sni & <- & _). now repeat split.
    + now repeat constructor.
Qed.

End Policies.

(** The second scenario of the tests: an unknown domain and one address. *)
Lemma dnsPolicy_one_tactic_per_address_witness :
  LookupTactics
    (bridges example_bridgesDomains example_testHelpersDomains
       example_testHelpersTactics
       (dnsPolicy (constant_resolver ["93.184.216.34"])))
    context_Background "www.example.com" "443"
  = [{| Address := "93.184.216.34";
        InitialDelay := 0;
        Port := "443";
        SNI := "www.example.com";
        VerifyHostname := "www.example.com" |}] /\
  LookupTactics (dnsPolicy failing_resolver)
    context_Background "www.example.com" "443" = [].
Proof.
  assert (Hbridged : "www.example.com" <> bridgedDomain) by discriminate.
  assert (Hth : ~ In "www.example.com" example_testHelpersDomains).
  { simpl. intros [H | [H | []]]; discriminate H. }
  split.
  - destruct (dnsPolicy_one_tactic_per_address example_bridgesDomains
                example_testHelpersDomains example_testHelpersTactics
                (constant_resolver ["93.184.216.34"]) context_Background
                "www.example.com" "443" Hbridged Hth)
      as (Hpass & _ & Hok).
    rewrite Hpass. exact (proj1 (Hok (Some ["93.184.216.34"]) eq_refl)).
  - destruct (dnsPolicy_one_tactic_per_address example_bridgesDomains
                example_testHelpersDomains example_testHelpersTactics
                failing_resolver
                context_Background "www.example.com" "443" Hbridged Hth)
      as (_ & Hfail & _).
    exact (Hfail None (errors_New "mocked error") eq_refl).
Defined.

(** The fourth scenario of the tests: the bridged domain and one
    address. *)
Lemma bridgesPolicy_dns_tactic_last_witness :
  exists (before : list httpsDialerTactic) (final : httpsDialerTactic),
    LookupTactics
      (bridges example_bridgesDomains example_testHelpersDomains
         example_testHelpersTactics
         (dnsPolicy (constant_resolver ["130.192.91.211"])))
      context_Background "api.ooni.io" "443"
    = before ++ [final] /\
    Address final = "130.192.91.211" /\
    SNI final = "api.ooni.io" /\
    Forall (fun t => Address t = "162.55.247.208" /\
                     SNI t <> "api.ooni.io") before.
Proof.
  assert (Hne : example_bridgesDomains <> []) by discriminate.
  assert (Hnot : ~ In "api.ooni.io" example_bridgesDomains).
  { simpl. intros [H | [H | [H | []]]]; discriminate H. }
  exact (proj1 (proj2 (bridgesPolicy_dns_tactic_last example_bridgesDomains
                         example_testHelpersDomains
                         example_testHelpersTactics
                         (constant_resolver ["130.192.91.211"])
                         context_Background "130.192.91.211"
                         Hne Hnot eq_refl))).
Defined.

(** The first and third scenarios of [TestBridgesPolicy], at the example
    tables. *)
Example TestBridgesPolicy_unknown_domain_DNS_failure :
  LookupTactics
    (bridges example_bridgesDomains example_testHelpersDomains
       example_testHelpersTactics
       (dnsPolicy failing_resolver))
    context_Background "www.example.com" "443" = [].
Proof. reflexivity. Qed.

Example TestBridgesPolicy_bridged_domain_DNS_failure :
  let tactics :=
    LookupTactics
      (bridges example_bridgesDomains example_testHelpersDomains
         example_testHelpersTactics
         (dnsPolicy failing_resolver))
      context_Background "api.ooni.io" "443" in
  0 < length tactics /\
  forallb (fun t =>
    String.eqb (Port t) "443" &&
    String.eqb (Address t) "162.55.247.208" &&
    Z.eqb (InitialDelay t) 0 &&
    negb (String.eqb (SNI t) "api.ooni.io") &&
    String.eqb (VerifyHostname t) "api.ooni.io") tactics = true.
Proof. split; [simpl; lia | reflexivity]. Qed.

End PolicyTheory.

(** * More of the session: frames, lifecycle and composition *)

From Stdlib Require Import DecimalN DecimalPos.

Module SessionCoverage.
Import engine SessionTheory.

(** ** Creating a session *)

(** The error [NewSession] reports is that of the first mandatory setting
    that is missing, in the order assets directory, logger, software name,
    software version; then the failure to create the temporary directory.
    Otherwise the session copies the settings, holds the directory that was
    created and starts with no location, no selected probe service, no
    test helpers, no tunnel and no test hook. *)
Theorem NewSession_validates (env : Env) (config : SessionConfig) :
  (AssetsDir config = "" ->
   NewSession env config = (None, Some (errors_New "AssetsDir is empty"))) /\
  (AssetsDir config <> "" -> Logger config = false ->
   NewSession env config = (None, Some (errors_New "Logger is empty"))) /\
  (AssetsDir config <> "" -> Logger config = true ->
   SoftwareName_ config = "" ->
   NewSession env config
     = (None, Some (errors_New "SoftwareName is empty"))) /\
  (AssetsDir config <> "" -> Logger config = true ->
   SoftwareName_ config <> "" -> SoftwareVersion_ config = "" ->
   NewSession env config
     = (None, Some (errors_New "SoftwareVersion is empty"))) /\
  (AssetsDir config <> "" -> Logger config = true ->
   SoftwareName_ config <> "" -> SoftwareVersion_ config <> "" ->
   (forall dir e,
      ioutil_TempDir env (TempDir_ config) "ooniengine" = (dir, Some e) ->
      NewSession env config = (None, Some e)) /\
   (forall dir,
      ioutil_TempDir env (TempDir_ config) "ooniengine" = (Some dir, None) ->
      exists s : Session,
        NewSession env config = (Some s, None) /\
        assetsDir s = AssetsDir config /\
        availableProbeServices s = AvailableProbeServices config /\
        proxyURL s = ProxyURL_ config /\
        softwareName s = SoftwareName_ config /\
        softwareVersion s = SoftwareVersion_ config /\
        torArgs s = TorArgs_ config /\
        torBinary s = TorBinary_ config /\
        tempDir s = dir /\
        location s = None /\
        selectedProbeService s = None /\
        availableTestHelpers s = [] /\
        queryProbeServicesCount s = 0%Z /\
        tunnel s = None /\
        tunnelName s = "" /\
        testMaybeLookupBackendsContext s = None)).
Proof.
  unfold NewSession.
  destruct (String.eqb_spec (AssetsDir config) "") as [Ha|Ha];
    [repeat split; intros; congruence |].
  destruct (Logger config);
    [| repeat split; intros; congruence]. cbn [negb].
  destruct (String.eqb_spec (SoftwareName_ config) "") as [Hn|Hn];
    [repeat split; intros; congruence |].
  destruct (String.eqb_spec (SoftwareVersion_ config) "") as [Hv|Hv];
    [repeat split; intros; congruence |].
  split; [congruence |]. split; [congruence |]. split; [congruence |].
  split; [congruence |]. intros _ _ _ _. split.
  - intros dir e ->. reflexivity.
  - intros dir ->. cbn [non_nil]. eexists. split; [reflexivity |].
    cbn. repeat split.
Qed.

(** The example settings give the example session; without a software
    name they are refused. *)
Lemma NewSession_validates_witness :
  (exists s : Session,
     NewSession example_env example_SessionConfig = (Some s, None) /\
     tempDir s = "/tmp/ooniengine1" /\
     location s = None /\ tunnel s = None) /\
  NewSession example_env
    {| AssetsDir := "/var/lib/ooni/assets";
       AvailableProbeServices := [];
       KVStore := false;
       Logger := true;
       ProxyURL_ := None;
       SoftwareName_ := "";
       SoftwareVersion_ := "0.1.0-dev";
       TempDir_ := "/tmp";
       TorArgs_ := [];
       TorBinary_ := "" |}
    = (None, Some (errors_New "SoftwareName is empty")).
Proof.
  split.
  - destruct (proj2 (proj2 (proj2 (proj2
        (NewSession_validates example_env example_SessionConfig)))))
      as [_ Hok]; try discriminate; try reflexivity.
    destruct (Hok "/tmp/ooniengine1" eq_refl)
      as (s & Hrun & _ & _ & _ & _ & _ & _ & _ & Hdir & Hloc & _ & _ & _ &
          Htun & _).
    exists s. repeat split; assumption.
  - apply (proj1 (proj2 (proj2 (NewSession_validates example_env _))));
      [discriminate | reflexivity | reflexivity].
Defined.

(** ** What a location lookup touches *)

Lemma set_location_same (s : Session) : set_location (location s) s = s.
Proof. destruct s; reflexivity. Qed.

(** The configuration [LookupLocationContext] runs the geolocation task
    with, at a session. *)
Definition geolocate_config (env : Env) (s : Session) : geolocate.Config := {|
  geolocate.EnableResolverLookup := negb (non_nil (proxyURL s));
  geolocate.UserAgent :=
    (softwareName s ++ "/" ++ softwareVersion s
       ++ " ooniprobe-engine/" ++ version_Version env)%string
|}.

Lemma string_append_assoc (a b c : string) :
  ((a ++ b) ++ c)%string = (a ++ (b ++ c))%string.
Proof.
  induction a as [|x a IH]; cbn; [reflexivity | now rewrite IH].
Qed.

(** [UserAgent]: name, version, and the version of the engine. *)
Lemma UserAgent_run (env : Env) (st : St) :
  UserAgent env st
    = Some ((softwareName (sess st) ++ "/" ++ softwareVersion (sess st)
               ++ " ooniprobe-engine/" ++ version_Version env)%string, st).
Proof.
  unfold UserAgent. run. now rewrite !string_append_assoc.
Qed.

(** A lookup is the test hook, when set, and otherwise one run of the
    geolocation task with the configuration above. *)
Lemma lookupLocationContext_event (env : Env) (ctx : Context) (st : St) :
  exists (r : result geolocate.Results) (ev : Event),
    lookupLocationContext env ctx st = Some (r, logged st [ev]) /\
    (ev = EvTestLookupLocationContext \/
     ev = EvGeolocateRun (geolocate_config env (sess st))).
Proof.
  unfold lookupLocationContext, LookupLocationContext, geolocate_config.
  unfold bind at 1. unfold self at 1.
  destruct (testLookupLocationContext (sess st)) as [hook|].
  - eexists; eexists. split; [reflexivity | now left].
  - unfold bind at 1. unfold self at 1. unfold bind at 1.
    rewrite UserAgent_run.
    eexists; eexists. split; [reflexivity | now right].
Qed.

(** Every run of [MaybeLookupLocationContext], with its result, the events
    it adds and the location it leaves. *)
Lemma MaybeLookupLocationContext_frame (env : Env) (ctx : Context) (st : St) :
  exists (r : option error) (st' : St) (es : list Event)
         (loc : option geolocate.Results),
    MaybeLookupLocationContext env ctx st = Some (r, st') /\
    hist st' = hist st ++ es /\
    sess st' = set_location loc (sess st) /\
    (location (sess st) <> None -> loc = location (sess st)) /\
    (r <> None -> loc = location (sess st)) /\
    (es = [] \/ es = [EvLock mu; EvUnlock mu] \/
     es = [EvLock mu; EvTestLookupLocationContext; EvUnlock mu] \/
     es = [EvLock mu; EvGeolocateRun (geolocate_config env (sess st));
           EvUnlock mu]).
Proof.
  destruct (ctx_Err ctx) as [e|] eqn:Hctx.
  - exists (Some e), st, [], (location (sess st)).
    rewrite (MaybeLookupLocationContext_cancelled _ _ _ _ Hctx).
    rewrite app_nil_r, set_location_same. repeat split; auto.
  - destruct (location (sess st)) as [l|] eqn:Hloc.
    + exists None, (logged st [EvLock mu; EvUnlock mu]),
             [EvLock mu; EvUnlock mu], (Some l).
      rewrite (MaybeLookupLocationContext_cached _ _ _ Hctx)
        by (rewrite Hloc; discriminate).
      cbn [logged sess hist]. rewrite <- Hloc, set_location_same.
      repeat split; auto.
    + rewrite (MaybeLookupLocationContext_miss _ _ _ Hctx Hloc).
      destruct (lookupLocationContext_event env ctx (logged st [EvLock mu]))
        as ([loc [e|]] & ev & Hrun & Hev); rewrite Hrun.
      * exists (Some e), (logged (logged (logged st [EvLock mu]) [ev])
                            [EvUnlock mu]),
               [EvLock mu; ev; EvUnlock mu], None.
        cbn [logged sess hist]. rewrite <- !app_assoc.
        rewrite <- Hloc, set_location_same.
        repeat split; auto; try congruence.
        destruct Hev as [-> | ->]; auto.
      * exists None, {| sess := set_location loc (sess st);
                        hist := hist st ++ [EvLock mu; ev; EvUnlock mu] |},
               [EvLock mu; ev; EvUnlock mu], loc.
        cbn [logged sess hist]. rewrite <- !app_assoc.
        repeat split; auto; try congruence.
        destruct Hev as [-> | ->]; auto.
Qed.

(** [MaybeLookupLocationContext] never panics and writes no field of the
    session but [location]; it writes that one only when it was nil and
    the lookup returned no error. *)
Theorem MaybeLookupLocationContext_sets_location_once (env : Env)
  (ctx : Context) (st : St) :
  exists (r : option error) (st' : St) (loc : option geolocate.Results),
    MaybeLookupLocationContext env ctx st = Some (r, st') /\
    sess st' = set_location loc (sess st) /\
    (location (sess st) <> None -> sess st' = sess st) /\
    (r <> None -> sess st' = sess st).
Proof.
  destruct (MaybeLookupLocationContext_frame env ctx st)
    as (r & st' & es & loc & Hrun & _ & Hsess & Hset & Herr & _).
  exists r, st', loc. split; [exact Hrun |]. split; [exact Hsess |].
  split; intros H; rewrite Hsess;
    [rewrite (Hset H) | rewrite (Herr H)]; apply set_location_same.
Qed.

(** The resolver lookup of the geolocation task is enabled exactly when
    the session has no proxy; the task announces the session's user agent.
    A call runs the task at most once, under the mutex. *)
Theorem geolocation_resolver_lookup_only_without_proxy (env : Env)
  (ctx : Context) (st : St) :
  exists (r : option error) (st' : St) (es : list Event),
    MaybeLookupLocationContext env ctx st = Some (r, st') /\
    hist st' = hist st ++ es /\
    count is_lookup es <= 1 /\
    forall config : geolocate.Config,
      In (EvGeolocateRun config) es ->
      (geolocate.EnableResolverLookup config = true <->
       proxyURL (sess st) = None) /\
      geolocate.UserAgent config
        = (softwareName (sess st) ++ "/" ++ softwareVersion (sess st)
             ++ " ooniprobe-engine/" ++ version_Version env)%string /\
      exists before after,
        es = EvLock mu :: before ++ EvGeolocateRun config :: after
             ++ [EvUnlock mu].
Proof.
  destruct (MaybeLookupLocationContext_frame env ctx st)
    as (r & st' & es & loc & Hrun & Hhist & _ & _ & _ & Hes).
  exists r, st', es. split; [exact Hrun |]. split; [exact Hhist |].
  assert (Hproxy :
    geolocate.EnableResolverLookup (geolocate_config env (sess st)) = true
    <-> proxyURL (sess st) = None).
  { unfold geolocate_config. cbn.
    destruct (proxyURL (sess st)); cbn; split; congruence. }
  destruct Hes as [-> | [-> | [-> | ->]]]; (split; [cbn; lia |]);
    intros config Hin; cbn in Hin;
    repeat match goal with
           | H : _ \/ _ |- _ => destruct H as [H | H]
           | H : False |- _ => contradiction
           end; try discriminate.
  injection Hin as <-. split; [exact Hproxy |]. split; [reflexivity |].
  exists [], []. reflexivity.
Qed.

(** ** What a backend selection leaves *)

(** Every run of [MaybeLookupBackendsContext]: it never panics, its only
    error is [ErrAllProbeServicesFailed], and it leaves a probe service
    selected exactly when it returns nil. It writes the counter of
    attempts, the selected service and the test helpers, nothing else. *)
Lemma MaybeLookupBackendsContext_frame (env : Env) (ctx : Context) (st : St) :
  exists (r : option error) (st' : St),
    MaybeLookupBackendsContext env ctx st = Some (r, st') /\
    (r = None \/ r = Some ErrAllProbeServicesFailed) /\
    (r = None -> selectedProbeService (sess st') <> None) /\
    (r <> None ->
     selectedProbeService (sess st') = None /\
     availableTestHelpers (sess st') = availableTestHelpers (sess st)) /\
    (selectedProbeService (sess st) <> None -> r = None /\ sess st' = sess st) /\
    location (sess st') = location (sess st) /\
    softwareName (sess st') = softwareName (sess st) /\
    softwareVersion (sess st') = softwareVersion (sess st).
Proof.
  destruct (selectedProbeService (sess st)) as [svc|] eqn:Hsel.
  - exists None, (logged st [EvLock mu; EvUnlock mu]).
    rewrite MaybeLookupBackendsContext_selected by (rewrite Hsel; discriminate).
    cbn [logged sess]. rewrite Hsel.
    repeat split; auto; try discriminate; congruence.
  - rewrite (MaybeLookupBackendsContext_run env ctx st Hsel).
    destruct (probeservices.SelectBest (pass_outcomes env ctx st)) as [sel|];
      eexists; eexists; (split; [reflexivity |]); cbn;
      repeat split; auto; try discriminate; try congruence.
Qed.

(** A selection is made once. When [MaybeLookupBackendsContext] returns nil
    a probe service is selected, and every later call, whatever its
    context, returns nil having only taken the mutex: no pass, no change.
    When it fails, nothing is selected and the test helpers are as
    before. *)
Theorem MaybeLookupBackendsContext_selects_once (env : Env) (ctx : Context)
  (st : St) :
  exists (r : option error) (st' : St),
    MaybeLookupBackendsContext env ctx st = Some (r, st') /\
    (r = None \/ r = Some ErrAllProbeServicesFailed) /\
    (r = None ->
     selectedProbeService (sess st') <> None /\
     forall ctx2 : Context,
       MaybeLookupBackendsContext env ctx2 st'
         = Some (None, logged st' [EvLock mu; EvUnlock mu])) /\
    (r <> None ->
     selectedProbeService (sess st') = None /\
     availableTestHelpers (sess st') = availableTestHelpers (sess st)) /\
    (selectedProbeService (sess st) <> None -> sess st' = sess st).
Proof.
  destruct (MaybeLookupBackendsContext_frame env ctx st)
    as (r & st' & Hrun & Hr & Hok & Hfail & Hsel & _).
  exists r, st'. split; [exact Hrun |]. split; [exact Hr |].
  split; [| split; [exact Hfail | intros H; exact (proj2 (Hsel H))]].
  intros Hnil. split; [exact (Hok Hnil) |].
  intros ctx2. exact (MaybeLookupBackendsContext_selected env ctx2 st'
                        (Hok Hnil)).
Qed.

(** [GetTestHelpersByName] reads the map under the mutex. *)
Lemma GetTestHelpersByName_run (name : string) (st : St) :
  GetTestHelpersByName name st
    = Some (match map_lookup (availableTestHelpers (sess st)) name with
            | Some services => (services, true)
            | None => ([], false)
            end, logged st [EvLock mu; EvUnlock mu]).
Proof.
  unfold GetTestHelpersByName. rewrite run_locked. run.
  destruct (map_lookup (availableTestHelpers (sess st)) name);
    cbn; now rewrite <- app_assoc.
Qed.

(** After a selection that succeeded on a session with nothing selected,
    the selected endpoint and the test helpers are those of one and the
    same candidate, which succeeded in the pass; [GetTestHelpersByName]
    answers from that candidate's map, and with [false] for a name the map
    does not hold. *)
Theorem test_helpers_come_from_the_selected_candidate (env : Env)
  (ctx : Context) (st st1 : St) :
  selectedProbeService (sess st) = None ->
  MaybeLookupBackendsContext env ctx st = Some (None, st1) ->
  exists selected : probeservices.Candidate,
    In selected (pass_outcomes env ctx st) /\
    probeservices.Err selected = None /\
    selectedProbeService (sess st1)
      = Some (probeservices.Endpoint selected) /\
    forall name : string,
      GetTestHelpersByName name st1
        = Some (match map_lookup (probeservices.TestHelpers selected) name
                with
                | Some services => (services, true)
                | None => ([], false)
                end, logged st1 [EvLock mu; EvUnlock mu]).
Proof.
  intros Hsel Hrun.
  rewrite (MaybeLookupBackendsContext_run env ctx st Hsel) in Hrun.
  pose proof (SelectBest_spec (pass_outcomes env ctx st)) as Hbest.
  destruct (probeservices.SelectBest (pass_outcomes env ctx st)) as [sel|];
    [| discriminate].
  destruct Hbest as [Hin Hok]. injection Hrun as <-.
  exists sel. split; [exact Hin |]. split; [exact Hok |].
  split; [reflexivity |]. intros name. now rewrite GetTestHelpersByName_run.
Qed.

(** A world in which the one probe service answers and announces a test
    helper. *)
Definition helpers_env : Env :=
  with_TryAll
    (fun _ _ _ services =>
       map (fun endpoint => {|
              probeservices.Duration := 80;
              probeservices.Err := None;
              probeservices.Endpoint := endpoint;
              probeservices.TestHelpers :=
                [("web-connectivity",
                  [{| model.Address := "https://0.th.ooni.org";
                      model.Type_ := "https";
                      model.Front := "" |}])]
            |}) services)
    example_env.

(** The example session after a selection in that world. *)
Definition helpers_state : St := {|
  sess := set_availableTestHelpers
            [("web-connectivity",
              [{| model.Address := "https://0.th.ooni.org";
                  model.Type_ := "https";
                  model.Front := "" |}])]
            (set_selectedProbeService (Some example_service)
               (counted example_session));
  hist := [EvLock mu; EvTryAll [example_service];
           EvInfof "session: using probe services: %+v"; EvUnlock mu]
|}.

Lemma test_helpers_come_from_the_selected_candidate_witness :
  GetTestHelpersByName "web-connectivity" helpers_state
    = Some (([{| model.Address := "https://0.th.ooni.org";
                 model.Type_ := "https";
                 model.Front := "" |}], true),
            logged helpers_state [EvLock mu; EvUnlock mu]) /\
  GetTestHelpersByName "tcp-echo" helpers_state
    = Some (([], false), logged helpers_state [EvLock mu; EvUnlock mu]).
Proof.
  destruct (test_helpers_come_from_the_selected_candidate helpers_env
              context_Background example_state helpers_state
              eq_refl eq_refl)
    as (sel & Hin & _ & _ & Hget).
  destruct Hin as [<- | []].
  split; [exact (Hget "web-connectivity") | exact (Hget "tcp-echo")].
Defined.

(** ** Building the probe services client *)

(** The wrapper of the location lookup: the test hook leaves the session
    alone, the method writes at most the location. *)
Lemma maybeLookupLocationContext_frame (env : Env) (ctx : Context) (st : St) :
  exists (r : option error) (st' : St) (loc : option geolocate.Results),
    maybeLookupLocationContext env ctx st = Some (r, st') /\
    sess st' = set_location loc (sess st) /\
    (location (sess st) <> None -> loc = location (sess st)).
Proof.
  unfold maybeLookupLocationContext. unfold bind at 1. unfold self at 1.
  destruct (testMaybeLookupLocationContext (sess st)) as [hook|].
  - exists (hook (hist st) ctx),
           (logged st [EvTestMaybeLookupLocationContext]),
           (location (sess st)).
    cbn [logged sess]. rewrite set_location_same. now repeat split.
  - destruct (MaybeLookupLocationContext_frame env ctx st)
      as (r & st' & es & loc & Hrun & _ & Hsess & Hset & _).
    exists r, st', loc. now repeat split.
Qed.

Lemma maybeLookupBackendsContext_no_hook (env : Env) (ctx : Context)
  (st : St) :
  testMaybeLookupBackendsContext (sess st) = None ->
  maybeLookupBackendsContext env ctx st
    = MaybeLookupBackendsContext env ctx st.
Proof.
  intros H. unfold maybeLookupBackendsContext.
  unfold bind at 1. unfold self at 1. now rewrite H.
Qed.

(** Without the test hook for the backends, [NewProbeServicesClient] never
    dereferences a nil [selectedProbeService]: it always returns. When it
    returns no error, the client is the one [probeservices.NewClient] built,
    as its last action, for the probe service that is selected. *)
Theorem NewProbeServicesClient_builds_for_selected (env : Env)
  (ctx : Context) (st : St) :
  testMaybeLookupBackendsContext (sess st) = None ->
  exists (r : result sessionProbeServicesClientForCheckIn) (st' : St),
    NewProbeServicesClient env ctx st = Some (r, st') /\
    (snd r = None ->
     exists (svc : model.Service) (h : History),
       selectedProbeService (sess st') = Some svc /\
       hist st' = h ++ [EvNewClient svc] /\
       r = probeservices_NewClient env h (sess st') svc).
Proof.
  intros Hhook. unfold NewProbeServicesClient.
  destruct (ctx_Err ctx) as [e|] eqn:Hctx; cbn [non_nil].
  { eexists; eexists. split; [reflexivity | discriminate]. }
  unfold bind at 1. rewrite (maybeLookupBackendsContext_no_hook _ _ _ Hhook).
  destruct (MaybeLookupBackendsContext_frame env ctx st)
    as (r1 & st1 & Hrun1 & _ & Hsel1 & _).
  rewrite Hrun1. destruct r1 as [e1|]; cbn [non_nil].
  { eexists; eexists. split; [reflexivity | discriminate]. }
  unfold bind at 1.
  destruct (maybeLookupLocationContext_frame env ctx st1)
    as (r2 & st2 & loc & Hrun2 & Hsess2 & _).
  rewrite Hrun2. destruct r2 as [e2|]; cbn [non_nil].
  { eexists; eexists. split; [reflexivity | discriminate]. }
  assert (Hsel2 : selectedProbeService (sess st2) <> None).
  { rewrite Hsess2. cbn. exact (Hsel1 eq_refl). }
  destruct (selectedProbeService (sess st2)) as [svc|] eqn:Hsvc;
    [| congruence].
  destruct st2 as [s2 h2]. cbn [sess] in Hsvc.
  destruct (selectedProbeServiceHook s2) eqn:Hh; run;
    rewrite Hh; cbn; rewrite !Hsvc; cbn;
    eexists; eexists; (split; [reflexivity |]); intros _;
    exists svc; eexists; cbn; (split; [exact Hsvc |]);
    (split; [| reflexivity]).
  - reflexivity.
  - reflexivity.
Qed.

(** The nil dereference is within reach of the test hook only: a hook that
    reports success without selecting anything makes the method panic. *)
Example NewProbeServicesClient_panics_behind_the_hook :
  NewProbeServicesClient example_env context_Background
    {| sess := {|
         assetsDir := "/var/lib/ooni/assets";
         availableProbeServices := [];
         availableTestHelpers := [];
         location := None;
         proxyURL := None;
         queryProbeServicesCount := 0;
         selectedProbeServiceHook := false;
         selectedProbeService := None;
         softwareName := "miniooni";
         softwareVersion := "0.1.0-dev";
         tempDir := "/tmp/ooniengine1";
         torArgs := [];
         torBinary := "";
         tunnelName := "";
         tunnel := None;
         testLookupLocationContext := None;
         testMaybeLookupBackendsContext := Some (fun _ _ => None);
         testMaybeLookupLocationContext := None;
         testNewProbeServicesClientForCheckIn := None
       |};
       hist := [] |}
  = None.
Proof. reflexivity. Qed.

(** The example session once [NewProbeServicesClient] has returned: the
    backend is selected first, the location looked up second. *)
Definition built_state : St := {|
  sess := set_location (Some example_location)
            (set_availableTestHelpers []
               (set_selectedProbeService (Some example_service)
                  (counted example_session)));
  hist := [EvLock mu; EvTryAll [example_service];
           EvInfof "session: using probe services: %+v"; EvUnlock mu;
           EvLock mu;
           EvGeolocateRun {|
             geolocate.EnableResolverLookup := true;
             geolocate.UserAgent :=
               "miniooni/0.1.0-dev ooniprobe-engine/3.0.0"
           |};
           EvUnlock mu; EvNewClient example_service]
|}.

Lemma NewProbeServicesClient_builds_for_selected_witness :
  NewProbeServicesClient example_env context_Background example_state
    = Some ((Some example_client, None), built_state) /\
  exists (svc : model.Service) (h : History),
    selectedProbeService (sess built_state) = Some svc /\
    hist built_state = h ++ [EvNewClient svc].
Proof.
  destruct (NewProbeServicesClient_builds_for_selected example_env
              context_Background example_state eq_refl)
    as (r & st' & Hrun & Hok).
  assert (Hhere :
    NewProbeServicesClient example_env context_Background example_state
      = Some ((Some example_client, None), built_state)) by reflexivity.
  rewrite Hhere in Hrun. injection Hrun as <- <-.
  split; [exact Hhere |].
  destruct (Hok eq_refl) as (svc & h & Hsvc & Hhist & _).
  exists svc, h. split; [exact Hsvc | exact Hhist].
Defined.

(** ** The tunnel and the proxy *)

(** The promise of [MaybeStartTunnel]: asked for a tunnel by name and
    answered nil, the caller finds the tunnel of that name in the session
    and [ProxyURL] gives the tunnel's URL. This holds of a session whose
    proxy is that of its tunnel, if it has a tunnel, which the method keeps
    so; and when [tunnel.Start], if called, returned a tunnel or an
    error. *)
Theorem MaybeStartTunnel_nil_gives_the_tunnel_proxy (env : Env)
  (ctx : Context) (name : string) (st st' : St) (r : option error) :
  (forall t, tunnel (sess st) = Some t ->
             proxyURL (sess st) = tunnel.SOCKS5ProxyURL t) ->
  MaybeStartTunnel env ctx name st = Some (r, st') ->
  (forall t, tunnel (sess st') = Some t ->
             proxyURL (sess st') = tunnel.SOCKS5ProxyURL t) /\
  (name <> "" -> r = None ->
   tunnel_Start env (hist st ++ [EvLock tunnelMu]) ctx
     {| Name := name; Session_ := sess st |} <> (None, None) ->
   exists t : tunnel.Tunnel,
     tunnel (sess st') = Some t /\
     tunnelName (sess st') = name /\
     ProxyURL st' = Some (tunnel.SOCKS5ProxyURL t, st')).
Proof.
  intros Hinv Hrun.
  destruct (proxyURL (sess st)) as [u|] eqn:Hp;
    destruct (tunnel (sess st)) as [t0|] eqn:Ht.
  4: { rewrite (MaybeStartTunnel_start env ctx name st Hp Ht) in Hrun.
       destruct (tunnel_Start env (hist st ++ [EvLock tunnelMu]) ctx
                   {| Name := name; Session_ := sess st |})
         as [[t|] [e|]] eqn:Hs; injection Hrun as <- <-; cbn.
       - rewrite Ht. split; [discriminate | discriminate].
       - split; [intros t1 H1; injection H1 as <-; reflexivity |].
         intros _ _ _. exists t. now repeat split.
       - rewrite Ht. split; [discriminate | discriminate].
       - rewrite Ht. split; [discriminate | congruence]. }
  all: unfold MaybeStartTunnel in Hrun; rewrite run_locked in Hrun;
    unfold bind, self, ret in Hrun; cbn [logged sess] in Hrun;
    rewrite Hp, Ht in Hrun; cbn [non_nil andb orb] in Hrun;
    destruct (String.eqb_spec (tunnelName (sess st)) name) as [Hsame|Hdiff];
    destruct (String.eqb_spec name "") as [Hname|Hname];
    cbn in Hrun; injection Hrun as <- <-; cbn [logged sess];
    (split; [rewrite ?Ht, ?Hp; first [exact Hinv | discriminate] |]);
    intros Hn Hr _; try contradiction; try discriminate.
  all: exists t0; split; [exact Ht | split; [exact Hsame |]];
    unfold ProxyURL, bind, self, ret; cbn [logged sess];
    now rewrite Hp, (Hinv t0 eq_refl).
Qed.

(** Tor at the example session, and tor again once it runs. *)
Lemma MaybeStartTunnel_nil_gives_the_tunnel_proxy_witness :
  ProxyURL tor_state = Some (Some "socks5://127.0.0.1:9050", tor_state) /\
  tunnelName (sess tor_state) = "tor" /\
  ProxyURL (logged tor_state [EvLock tunnelMu; EvUnlock tunnelMu])
    = Some (Some "socks5://127.0.0.1:9050",
            logged tor_state [EvLock tunnelMu; EvUnlock tunnelMu]).
Proof.
  destruct (proj2 (MaybeStartTunnel_nil_gives_the_tunnel_proxy example_env
                     context_Background "tor" example_state tor_state None
                     ltac:(discriminate) eq_refl)
              ltac:(discriminate) eq_refl ltac:(discriminate))
    as (t & Ht & Hname & Hurl).
  injection Ht as <-.
  destruct (proj2 (MaybeStartTunnel_nil_gives_the_tunnel_proxy example_env
                     context_Background "tor" tor_state
                     (logged tor_state [EvLock tunnelMu; EvUnlock tunnelMu])
                     None
                     ltac:(intros t H; injection H as <-; reflexivity)
                     eq_refl)
              ltac:(discriminate) eq_refl ltac:(discriminate))
    as (t' & Ht' & _ & Hurl').
  injection Ht' as <-.
  split; [exact Hurl | split; [exact Hname | exact Hurl']].
Defined.

(** ** Closing a session *)

(** What [Close] does to the world, in order. *)
Inductive CloseAction : Type :=
| CloseIdleConnections_httpDefaultTransport
| CloseIdleConnections_resolver
| Infof_resolver_Stats (stats : string)
| Tunnel_Stop (t : tunnel.Tunnel)
| os_RemoveAll (path : string).

(** [Close]: the actions it performs and the error it returns, which is
    that of removing the temporary directory. The statistics of the
    resolver and the file system are the world's. It writes no field. *)
Definition Close (resolver_Stats : string)
  (removeAll : string -> option error) (s : Session)
  : list CloseAction * option error :=
  let actions := [CloseIdleConnections_httpDefaultTransport] in
  let actions := actions ++ [CloseIdleConnections_resolver] in
  let actions := actions ++ [Infof_resolver_Stats resolver_Stats] in
  let actions := match tunnel s with
                 | Some t => actions ++ [Tunnel_Stop t]
                 | None => actions
                 end in
  (actions ++ [os_RemoveAll (tempDir s)], removeAll (tempDir s)).

(** The life of a session. A session that [NewSession] created and that
    started a tunnel by name is closed by stopping that very tunnel, once,
    and then removing the temporary directory [NewSession] created; the
    error of the removal is the result. Closed before any tunnel was
    started, it stops nothing. *)
Theorem Close_stops_the_started_tunnel (env : Env) (ctx : Context)
  (config : SessionConfig) (s : Session) (dir name stats : string)
  (removeAll : string -> option error) (h : History) (st' : St) :
  NewSession env config = (Some s, None) ->
  ioutil_TempDir env (TempDir_ config) "ooniengine" = (Some dir, None) ->
  name <> "" ->
  MaybeStartTunnel env ctx name {| sess := s; hist := h |}
    = Some (None, st') ->
  tunnel_Start env (h ++ [EvLock tunnelMu]) ctx
    {| Name := name; Session_ := s |} <> (None, None) ->
  Close stats removeAll s
    = ([CloseIdleConnections_httpDefaultTransport;
        CloseIdleConnections_resolver;
        Infof_resolver_Stats stats;
        os_RemoveAll dir], removeAll dir) /\
  exists t : tunnel.Tunnel,
    tunnel_Start env (h ++ [EvLock tunnelMu]) ctx
      {| Name := name; Session_ := s |} = (Some t, None) /\
    Close stats removeAll (sess st')
      = ([CloseIdleConnections_httpDefaultTransport;
          CloseIdleConnections_resolver;
          Infof_resolver_Stats stats;
          Tunnel_Stop t;
          os_RemoveAll dir], removeAll dir).
Proof.
  intros Hnew Hdir Hname Hrun Hstart.
  assert (Hs : tunnel s = None /\ tempDir s = dir /\
               (proxyURL s <> None ->
                MaybeStartTunnel env ctx name {| sess := s; hist := h |}
                  <> Some (None, st'))).
  { unfold NewSession in Hnew.
    destruct (String.eqb (AssetsDir config) ""); [discriminate |].
    destruct (Logger config); [| discriminate]. cbn [negb] in Hnew.
    destruct (String.eqb (SoftwareName_ config) ""); [discriminate |].
    destruct (String.eqb (SoftwareVersion_ config) ""); [discriminate |].
    rewrite Hdir in Hnew. cbn [non_nil] in Hnew. injection Hnew as <-.
    split; [reflexivity |]. split; [reflexivity |].
    intros Hp.
    rewrite (MaybeStartTunnel_noop env ctx name _ (Some ErrAlreadyUsingProxy));
      [discriminate |].
    cbn [sess tunnel proxyURL tunnelName non_nil andb orb] in Hp |- *.
    destruct (ProxyURL_ config); [| congruence].
    cbn [non_nil andb orb].
    destruct (String.eqb_spec name ""); [contradiction |]. now split. }
  destruct Hs as (Ht & Htmp & Hproxy).
  split; [unfold Close; now rewrite Ht, Htmp |].
  destruct (proxyURL s) as [u|] eqn:Hp;
    [exfalso; apply Hproxy; [discriminate | exact Hrun] |].
  pose proof (MaybeStartTunnel_start env ctx name {| sess := s; hist := h |}
                Hp Ht) as Hcase.
  cbn [sess hist] in Hcase. rewrite Hcase in Hrun.
  destruct (tunnel_Start env (h ++ [EvLock tunnelMu]) ctx
              {| Name := name; Session_ := s |}) as [[t|] [e|]];
    try discriminate; try congruence.
  injection Hrun as <-. exists t. split; [reflexivity |].
  unfold Close. cbn. now rewrite Htmp.
Qed.

Lemma Close_stops_the_started_tunnel_witness :
  Close "0 queries" (fun _ => None) (sess tor_state)
    = ([CloseIdleConnections_httpDefaultTransport;
        CloseIdleConnections_resolver;
        Infof_resolver_Stats "0 queries";
        Tunnel_Stop example_tunnel;
        os_RemoveAll "/tmp/ooniengine1"], None).
Proof.
  destruct (Close_stops_the_started_tunnel example_env context_Background
              example_SessionConfig example_session "/tmp/ooniengine1"
              "tor" "0 queries" (fun _ => None) [] tor_state
              eq_refl eq_refl ltac:(discriminate) eq_refl
              ltac:(discriminate))
    as (_ & t & Ht & Hclose).
  injection Ht as <-. exact Hclose.
Defined.

(** ** The defaults of the check-in *)

(** What the defaults of the check-in read from a session does not change
    from [s] to [s']: the software name and version are the same, and a
    location that is set stays. *)
Definition steady (s s' : Session) : Prop :=
  softwareName s' = softwareName s /\
  softwareVersion s' = softwareVersion s /\
  (location s <> None -> location s' = location s).

Lemma steady_refl (s : Session) : steady s s.
Proof. now repeat split. Qed.

Lemma steady_trans (s1 s2 s3 : Session) :
  steady s1 s2 -> steady s2 s3 -> steady s1 s3.
Proof.
  intros (Hn & Hv & Hl) (Hn' & Hv' & Hl'). repeat split; try congruence.
  intros H. rewrite <- (Hl H). apply Hl'. now rewrite (Hl H).
Qed.

Lemma maybeLookupLocationContext_steady (env : Env) (ctx : Context)
  (st st' : St) (r : option error) :
  maybeLookupLocationContext env ctx st = Some (r, st') ->
  steady (sess st) (sess st').
Proof.
  intros Hrun.
  destruct (maybeLookupLocationContext_frame env ctx st)
    as (r0 & st0 & loc & Hrun0 & Hsess & Hset).
  rewrite Hrun0 in Hrun. injection Hrun as _ <-. rewrite Hsess.
  repeat split. intros H. cbn. exact (Hset H).
Qed.

Lemma maybeLookupBackendsContext_steady (env : Env) (ctx : Context)
  (st st' : St) (r : option error) :
  maybeLookupBackendsContext env ctx st = Some (r, st') ->
  steady (sess st) (sess st').
Proof.
  unfold maybeLookupBackendsContext. unfold bind at 1. unfold self at 1.
  destruct (testMaybeLookupBackendsContext (sess st)) as [hook|].
  - unfold call. intros H. injection H as _ <-. apply steady_refl.
  - intros Hrun.
    destruct (MaybeLookupBackendsContext_frame env ctx st)
      as (r0 & st0 & Hrun0 & _ & _ & _ & _ & Hl & Hn & Hv).
    rewrite Hrun0 in Hrun. injection Hrun as _ <-.
    repeat split; auto.
Qed.

Lemma NewProbeServicesClient_steady (env : Env) (ctx : Context)
  (st st' : St) (r : result sessionProbeServicesClientForCheckIn) :
  NewProbeServicesClient env ctx st = Some (r, st') ->
  steady (sess st) (sess st').
Proof.
  unfold NewProbeServicesClient.
  destruct (ctx_Err ctx) as [e|]; cbn [non_nil].
  { intros H. injection H as _ <-. apply steady_refl. }
  unfold bind at 1.
  destruct (maybeLookupBackendsContext env ctx st) as [[r1 st1]|] eqn:H1;
    [| discriminate].
  apply maybeLookupBackendsContext_steady in H1.
  destruct r1 as [e1|]; cbn [non_nil].
  { intros H. injection H as _ <-. exact H1. }
  unfold bind at 1.
  destruct (maybeLookupLocationContext env ctx st1) as [[r2 st2]|] eqn:H2;
    [| discriminate].
  apply maybeLookupLocationContext_steady in H2.
  pose proof (steady_trans _ _ _ H1 H2) as H12.
  destruct r2 as [e2|]; cbn [non_nil].
  { intros H. injection H as _ <-. exact H12. }
  destruct st2 as [s2 h2]. cbn [sess] in *. run.
  destruct (selectedProbeServiceHook s2); cbn;
    destruct (selectedProbeService s2); cbn; try discriminate;
    intros H; injection H as _ <-; exact H12.
Qed.

Lemma newProbeServicesClientForCheckIn_steady (env : Env) (ctx : Context)
  (st st' : St) (r : result sessionProbeServicesClientForCheckIn) :
  newProbeServicesClientForCheckIn env ctx st = Some (r, st') ->
  steady (sess st) (sess st').
Proof.
  unfold newProbeServicesClientForCheckIn.
  unfold bind at 1. unfold self at 1.
  destruct (testNewProbeServicesClientForCheckIn (sess st)) as [hook|].
  - unfold call. intros H. injection H as _ <-. apply steady_refl.
  - unfold bind at 1.
    destruct (NewProbeServicesClient env ctx st) as [[[c e] st1]|] eqn:H1;
      [| discriminate].
    apply NewProbeServicesClient_steady in H1.
    destruct e; cbn; intros H; injection H as _ <-; exact H1.
Qed.

(** The config [CheckIn] leaves in the caller's struct is the one it got,
    or that one with the defaults of the session it leaves. *)
Lemma CheckIn_config_cases (env : Env) (ctx : Context)
  (config c : model.CheckInConfig) (st st' : St)
  (a : result model.CheckInInfo) :
  CheckIn env ctx config st = Some ((a, c), st') ->
  steady (sess st) (sess st') /\
  (c = config \/ c = spec_config_with_defaults env (sess st') config).
Proof.
  unfold CheckIn. unfold bind at 1.
  destruct (maybeLookupLocationContext env ctx st) as [[r1 st1]|] eqn:H1;
    [| discriminate].
  apply maybeLookupLocationContext_steady in H1.
  destruct r1 as [e1|]; cbn [non_nil].
  { intros H. injection H as _ <- <-. split; [exact H1 | now left]. }
  unfold bind at 1.
  destruct (newProbeServicesClientForCheckIn env ctx st1)
    as [[[cl e] st2]|] eqn:H2; [| discriminate].
  apply newProbeServicesClientForCheckIn_steady in H2.
  pose proof (steady_trans _ _ _ H1 H2) as H12.
  destruct e as [e2|]; cbn [non_nil].
  { intros H. injection H as _ <- <-. split; [exact H12 | now left]. }
  unfold bind at 1. rewrite fillDefaults_run.
  destruct cl as [client|]; [| discriminate].
  unfold bind, call, ret. cbn [logged sess hist].
  intros H. injection H as _ <- <-. split; [exact H12 | now right].
Qed.

Lemma or_default_again (field d d' : string) :
  (d = "" -> d' = "") ->
  or_default (or_default field d) d' = or_default field d.
Proof.
  intros H. unfold or_default.
  destruct (String.eqb_spec field "") as [Hf|Hf].
  - destruct (String.eqb_spec d "") as [Hd|Hd]; [| reflexivity].
    now rewrite (H Hd).
  - destruct (String.eqb_spec field ""); [contradiction | reflexivity].
Qed.

(** Filling the defaults again, at a session that is steady, changes
    nothing. *)
Lemma spec_config_with_defaults_again (env : Env) (s s' : Session)
  (config : model.CheckInConfig) :
  steady s s' ->
  spec_config_with_defaults env s'
    (spec_config_with_defaults env s config)
  = spec_config_with_defaults env s config.
Proof.
  intros (Hn & Hv & Hl). unfold spec_config_with_defaults. cbn.
  rewrite Hn, Hv.
  rewrite !(or_default_again _ _ _ (fun H => H)).
  f_equal.
  - apply or_default_again. discriminate.
  - apply or_default_again.
    destruct (location s) as [l|]; [| discriminate].
    now rewrite (Hl ltac:(discriminate)).
  - now destruct (model.CategoryCodes (model.WebConnectivity config)).
Qed.

(** The config that reaches the client is complete where the remote API
    needs it: the category codes are not nil, the run type and the ASN are
    not empty. And it is stable: a later [CheckIn] through the same pointer
    leaves the caller's config exactly as the first one left it, whatever
    happens in that later call. *)
Theorem CheckIn_defaults_complete_and_stable (env : Env) (ctx : Context)
  (config : model.CheckInConfig) (st st1 st2 : St)
  (client : sessionProbeServicesClientForCheckIn) :
  maybeLookupLocationContext env ctx st = Some (None, st1) ->
  newProbeServicesClientForCheckIn env ctx st1
    = Some ((Some client, None), st2) ->
  exists (a1 : result model.CheckInInfo) (c1 : model.CheckInConfig)
         (st' : St),
    CheckIn env ctx config st = Some ((a1, c1), st') /\
    In (EvClientCheckIn c1) (hist st') /\
    model.CategoryCodes (model.WebConnectivity c1) <> None /\
    model.RunType c1 <> "" /\
    model.ProbeASN c1 <> "" /\
    forall (ctx2 : Context) (a2 : result model.CheckInInfo)
           (c2 : model.CheckInConfig) (st3 : St),
      CheckIn env ctx2 c1 st' = Some ((a2, c2), st3) -> c2 = c1.
Proof.
  intros Hloc Hclient.
  pose proof (CheckIn_forwarded env ctx config st st1 st2 client
                Hloc Hclient) as Hrun.
  cbv zeta in Hrun.
  eexists; eexists; eexists. split; [exact Hrun |].
  split; [cbn [hist]; apply in_or_app; right; now left |].
  split; [cbn; now destruct (model.CategoryCodes
                               (model.WebConnectivity config)) |].
  split; [cbn; unfold or_default;
          destruct (String.eqb_spec (model.RunType config) "");
          [discriminate | assumption] |].
  split; [cbn; unfold or_default;
          destruct (String.eqb_spec (model.ProbeASN config) "");
          [discriminate | assumption] |].
  intros ctx2 a2 c2 st3 Hagain.
  apply CheckIn_config_cases in Hagain. cbn [sess] in Hagain.
  destruct Hagain as [Hsteady [-> | ->]]; [reflexivity |].
  now apply spec_config_with_defaults_again.
Qed.

Lemma CheckIn_defaults_complete_and_stable_witness :
  exists (a1 : result model.CheckInInfo) (st' : St),
    CheckIn example_env context_Background example_config example_state
      = Some ((a1, example_config_filled), st') /\
    forall (ctx2 : Context) (a2 : result model.CheckInInfo)
           (c2 : model.CheckInConfig) (st3 : St),
      CheckIn example_env ctx2 example_config_filled st'
        = Some ((a2, c2), st3) ->
      c2 = example_config_filled.
Proof.
  destruct (CheckIn_defaults_complete_and_stable example_env
              context_Background example_config example_state located_state
              client_state example_client eq_refl eq_refl)
    as (a1 & c1 & st' & Hrun & _ & _ & _ & _ & Hstable).
  assert (Hc1 : c1 = example_config_filled).
  { pose proof (CheckIn_forwarded example_env context_Background
                  example_config example_state located_state client_state
                  example_client eq_refl eq_refl) as Hhere.
    cbv zeta in Hhere. rewrite Hhere in Hrun. now injection Hrun as _ <- _. }
  subst c1. exists a1, st'. split; [exact Hrun | exact Hstable].
Defined.

(** ** Submitters *)

(** [NewSubmitter]: a submitter over the probe services client, or the
    error of building that client. [probeservices.NewSubmitter] only wraps
    the client it is given. *)
Definition NewSubmitter {Submitter : Type} (env : Env)
  (probeservices_NewSubmitter :
     option sessionProbeServicesClientForCheckIn -> Submitter)
  (ctx : Context) : M (result Submitter) :=
  r <- NewProbeServicesClient env ctx ;;
  let '(psc, err) := r in
  if non_nil err then ret (None, err)
  else ret (Some (probeservices_NewSubmitter psc), None).

(** A context that is cancelled at entry stops [CheckIn], when the test
    hook for the location is not set, and [NewSubmitter] at once: each
    returns the context's error, and nothing was locked, called or
    written, the caller's config included. *)
Theorem cancelled_context_stops_CheckIn_and_NewSubmitter
  {Submitter : Type} (env : Env)
  (newSubmitter : option sessionProbeServicesClientForCheckIn -> Submitter)
  (ctx : Context) (config : model.CheckInConfig) (st : St) (e : error) :
  ctx_Err ctx = Some e ->
  NewSubmitter env newSubmitter ctx st = Some ((None, Some e), st) /\
  (testMaybeLookupLocationContext (sess st) = None ->
   CheckIn env ctx config st = Some (((None, Some e), config), st)).
Proof.
  intros Hctx. split.
  - unfold NewSubmitter. unfold bind at 1.
    now rewrite (NewProbeServicesClient_cancelled env ctx st e Hctx).
  - intros Hhook. unfold CheckIn, maybeLookupLocationContext.
    unfold bind at 1. unfold bind at 1. unfold self at 1. rewrite Hhook.
    now rewrite (MaybeLookupLocationContext_cancelled env ctx st e Hctx).
Qed.

Lemma cancelled_context_stops_CheckIn_and_NewSubmitter_witness :
  NewSubmitter example_env (fun psc => psc) cancelled example_state
    = Some ((None, Some ContextCanceled), example_state) /\
  CheckIn example_env cancelled example_config example_state
    = Some (((None, Some ContextCanceled), example_config), example_state).
Proof.
  destruct (cancelled_context_stops_CheckIn_and_NewSubmitter example_env
              (fun psc => psc) cancelled example_config example_state
              ContextCanceled eq_refl) as [Hsub Hcheck].
  split; [exact Hsub | exact (Hcheck eq_refl)].
Defined.

(** [NewSubmitter] returns a submitter exactly when building the client
    returned no error, and otherwise that error; in both cases it leaves
    what building the client left. *)
Theorem NewSubmitter_follows_the_client {Submitter : Type} (env : Env)
  (newSubmitter : option sessionProbeServicesClientForCheckIn -> Submitter)
  (ctx : Context) (st : St) :
  NewSubmitter env newSubmitter ctx st =
  match NewProbeServicesClient env ctx st with
  | Some ((_, Some e), st') => Some ((None, Some e), st')
  | Some ((psc, None), st') => Some ((Some (newSubmitter psc), None), st')
  | None => None
  end.
Proof.
  unfold NewSubmitter. unfold bind at 1.
  destruct (NewProbeServicesClient env ctx st) as [[[psc [e|]] st']|];
    reflexivity.
Qed.

(** ** The ASN as a string *)

(** [ProbeASNString] and [ResolverASNString] are ["AS"] followed by
    decimal digits that read back as the number [ProbeASN] and
    [ResolverASN] return; the defaults included. *)
Theorem ASN_strings_read_back (env : Env) (st : St) :
  exists (probe resolver : N) (d1 d2 : string) (st' : St),
    ProbeASN env st = Some (probe, st') /\
    ResolverASN env st = Some (resolver, st') /\
    ProbeASNString env st = Some (("AS" ++ d1)%string, st') /\
    ResolverASNString env st = Some (("AS" ++ d2)%string, st') /\
    option_map N.of_uint (NilZero.uint_of_string d1) = Some probe /\
    option_map N.of_uint (NilZero.uint_of_string d2) = Some resolver.
Proof.
  assert (Hback : forall n : N,
    option_map N.of_uint (NilZero.uint_of_string (Sprintf_d n)) = Some n).
  { intros n. unfold Sprintf_d. rewrite NilZero.usu.
    - cbn. now rewrite DecimalN.Unsigned.of_to.
    - destruct n as [|p]; [discriminate |].
      apply DecimalPos.Unsigned.to_uint_nonnil. }
  exists (match location (sess st) with
          | Some l => geolocate.ASN l
          | None => DefaultProbeASN env
          end),
         (match location (sess st) with
          | Some l => geolocate.ResolverASN l
          | None => DefaultResolverASN env
          end).
  eexists; eexists; exists (logged st [EvLock mu; EvUnlock mu]).
  split; [apply ProbeASN_run |].
  split; [unfold ResolverASN; rewrite run_locked; run;
          now rewrite <- app_assoc |].
  split; [unfold ProbeASNString; unfold bind at 1; rewrite ProbeASN_run;
          reflexivity |].
  split; [unfold ResolverASNString, ResolverASN; unfold bind at 1;
          rewrite run_locked; run; now rewrite <- app_assoc |].
  split; apply Hback.
Qed.

(** ** The accessors after a lookup *)

(** When [MaybeLookupLocationContext], called with a live context on a
    session without a location, gets a location and no error from its
    lookup, the accessors return the fields of that location from then on.
    When the lookup returns neither a location nor an error, the call still
    returns nil, but nothing is cached: the accessors keep returning the
    defaults and a later call looks the location up again. *)
Theorem accessors_follow_the_lookup (env : Env) (ctx : Context)
  (st st1 : St) (loc : option geolocate.Results) :
  ctx_Err ctx = None ->
  location (sess st) = None ->
  lookupLocationContext env ctx (logged st [EvLock mu]) = Some ((loc, None), st1) ->
  exists st' : St,
    MaybeLookupLocationContext env ctx st = Some (None, st') /\
    location (sess st') = loc /\
    (forall l : geolocate.Results,
       loc = Some l ->
       let st'' := logged st' [EvLock mu; EvUnlock mu] in
       ProbeASN env st' = Some (geolocate.ASN l, st'') /\
       ProbeASNString env st'
         = Some (("AS" ++ Sprintf_d (geolocate.ASN l))%string, st'') /\
       ProbeCC st' = Some (geolocate.CountryCode l, st'') /\
       ProbeNetworkName env st' = Some (geolocate.NetworkName l, st'') /\
       ProbeIP env st' = Some (geolocate.ProbeIP l, st'') /\
       ResolverASN env st' = Some (geolocate.ResolverASN l, st'') /\
       ResolverIP env st' = Some (geolocate.ResolverIP l, st'') /\
       ResolverNetworkName env st'
         = Some (geolocate.ResolverNetworkName l, st'')) /\
    (loc = None ->
     ProbeCC st' = Some ("ZZ", logged st' [EvLock mu; EvUnlock mu]) /\
     ProbeASN env st'
       = Some (DefaultProbeASN env, logged st' [EvLock mu; EvUnlock mu]) /\
     exists (r2 : option error) (st2 : St),
       MaybeLookupLocation env st' = Some (r2, st2) /\
       count is_lookup (hist st2) = S (count is_lookup (hist st'))).
Proof.
  intros Hctx Hloc Hlookup.
  exists {| sess := set_location loc (sess st1);
            hist := hist st1 ++ [EvUnlock mu] |}.
  split; [now rewrite (MaybeLookupLocationContext_miss _ _ _ Hctx Hloc),
            Hlookup |].
  split; [reflexivity |]. split.
  - intros l ->. cbv zeta.
    unfold ProbeASNString, ProbeASN, ProbeCC, ProbeNetworkName, ProbeIP,
      ResolverASN, ResolverIP, ResolverNetworkName.
    unfold bind at 2. rewrite !run_locked. run.
    rewrite <- !app_assoc. cbn. now repeat split.
  - intros ->. split; [| split].
    + unfold ProbeCC. rewrite run_locked. run. now rewrite <- !app_assoc.
    + unfold ProbeASN. rewrite run_locked. run. now rewrite <- !app_assoc.
    + apply (MaybeLookupLocationContext_looks_up env context_Background);
        reflexivity.
Qed.

(** The example lookup, and a world whose location service answers with
    nothing. *)
Lemma accessors_follow_the_lookup_witness :
  ProbeCC located_state
    = Some ("IT", logged located_state [EvLock mu; EvUnlock mu]) /\
  ProbeASNString example_env located_state
    = Some ("AS30722", logged located_state [EvLock mu; EvUnlock mu]) /\
  exists st' : St,
    MaybeLookupLocationContext
      (with_geolocate_Run (fun _ _ _ => (None, None)) example_env)
      context_Background example_state = Some (None, st') /\
    ProbeCC st' = Some ("ZZ", logged st' [EvLock mu; EvUnlock mu]).
Proof.
  destruct (accessors_follow_the_lookup example_env context_Background
              example_state
              (logged example_state
                 [EvLock mu;
                  EvGeolocateRun {|
                    geolocate.EnableResolverLookup := true;
                    geolocate.UserAgent :=
                      "miniooni/0.1.0-dev ooniprobe-engine/3.0.0"
                  |}])
              (Some example_location) eq_refl eq_refl eq_refl)
    as (st' & Hrun & _ & Hsome & _).
  assert (Hst : st' = located_state).
  { assert (Hhere :
      MaybeLookupLocationContext example_env context_Background
        example_state = Some (None, located_state)) by reflexivity.
    rewrite Hhere in Hrun. now injection Hrun as <-. }
  subst st'.
  destruct (Hsome example_location eq_refl) as (_ & Hasn & Hcc & _).
  split; [exact Hcc | split; [exact Hasn |]].
  destruct (accessors_follow_the_lookup
              (with_geolocate_Run (fun _ _ _ => (None, None)) example_env)
              context_Background example_state
              (logged example_state
                 [EvLock mu;
                  EvGeolocateRun {|
                    geolocate.EnableResolverLookup := true;
                    geolocate.UserAgent :=
                      "miniooni/0.1.0-dev ooniprobe-engine/3.0.0"
                  |}])
              None eq_refl eq_refl eq_refl)
    as (st' & Hrun' & _ & _ & Hnone).
  exists st'. split; [exact Hrun' | exact (proj1 (Hnone eq_refl))].
Defined.

End SessionCoverage.

(** * More of the policies: the bridged domain when the DNS fails *)
Module PolicyCoverage.
Import enginenetx PolicyTheory.

Section Scenarios.

Variable bridgesDomains : list string.
Variable bridgesPolicyTestHelpersDomains : list string.
Variable testHelpersTactics :
  string -> string -> list httpsDialerTactic -> list httpsDialerTactic.

(** The scenario of the bridged domain with a failing DNS, for any port:
    the stream is not empty and holds bridge tactics only, so that the
    domain reaches the bridge and never shows as SNI. *)
Theorem bridged_domain_survives_DNS_failure (resolver : Resolver)
  (ctx : Context) (port : string) (addrs : option (list string))
  (e : error) :
  bridgesDomains <> [] ->
  ~ In "api.ooni.io" bridgesDomains ->
  LookupHost resolver ctx "api.ooni.io" = (addrs, Some e) ->
  let tactics :=
    LookupTactics
      (bridges bridgesDomains bridgesPolicyTestHelpersDomains
         testHelpersTactics (dnsPolicy resolver)) ctx "api.ooni.io" port in
  0 < length tactics /\
  Forall (fun t => Port t = port /\
                   Address t = "162.55.247.208" /\
                   InitialDelay t = 0%Z /\
                   SNI t <> "api.ooni.io" /\
                   In (SNI t) bridgesDomains /\
                   VerifyHostname t = "api.ooni.io") tactics.
Proof.
  intros Hne Hnot Hdns tactics.
  assert (Htactics :
    tactics = map (bridge_tactic "api.ooni.io" port) bridgesDomains).
  { subst tactics. unfold bridges, bridgesPolicy. cbn [LookupTactics].
    rewrite (bridgesTacticsForDomain_run bridgesDomains).
    change (LookupTactics (dnsPolicy resolver) ctx "api.ooni.io" port)
      with (let '(addrs, err) := LookupHost resolver ctx "api.ooni.io" in
            match err with
            | Some _ => []
            | None => map (dns_tactic "api.ooni.io" port) (elements addrs)
            end).
    rewrite Hdns. cbn. now rewrite app_nil_r. }
  rewrite Htactics. split.
  - rewrite length_map. destruct bridgesDomains; [congruence | cbn; lia].
  - apply Forall_forall. intros t Hin. apply in_map_iff in Hin.
    destruct Hin as (sni & <- & Hin). cbn.
    repeat split; auto. intros E. apply Hnot. now rewrite <- E.
Qed.

End Scenarios.

(** The third scenario of the tests, at the example tables. *)
Lemma bridged_domain_survives_DNS_failure_witness :
  Forall (fun t => Port t = "443" /\
                   Address t = "162.55.247.208" /\
                   InitialDelay t = 0%Z /\
                   SNI t <> "api.ooni.io" /\
                   In (SNI t) example_bridgesDomains /\
                   VerifyHostname t = "api.ooni.io")
    (LookupTactics
       (bridges example_bridgesDomains example_testHelpersDomains
          example_testHelpersTactics
          (dnsPolicy failing_resolver))
       context_Background "api.ooni.io" "443").
Proof.
  assert (Hne : example_bridgesDomains <> []) by discriminate.
  assert (Hnot : ~ In "api.ooni.io" example_bridgesDomains).
  { simpl. intros [H | [H | [H | []]]]; discriminate H. }
  exact (proj2 (bridged_domain_survives_DNS_failure example_bridgesDomains
                  example_testHelpersDomains example_testHelpersTactics
                  failing_resolver
                  context_Background "443" None (errors_New "mocked error")
                  Hne Hnot eq_refl)).
Defined.

End PolicyCoverage.
